(** * invenio_base.urls: cross-application URL building

    Shallow embedding of [src/invenio_base/urls.py] and proofs of the
    properties stated for it.

    The module has one class, [InvenioAppsUrlsBuilder], whose [setup] copies
    the routes of a second Flask application into a private werkzeug [Map]
    and whose [build] first tries the routing table of the current
    application and, when that raises [BuildError], the private map.

    Layout:
    - [Py]: the Python values, exceptions and results the module handles;
    - [Werkzeug]: the fragment of [werkzeug.routing] the module calls
      ([Rule], [Map], [Map.bind("").build]); this library is not part of
      the repository, so every property of [build] that can be stated
      without it is stated for an arbitrary adapter;
    - [Flask]: the application object ([config], [url_map],
      [view_functions]);
    - the state-and-exception monad [M] in which the methods are written;
    - the class itself, then the properties. *)

From stdpp Require Import gmap strings list.
From Stdlib Require Import Ascii.

Local Open Scope string_scope.

(** ** Python values, exceptions, results *)

Module Py.

(** [values] of [build]: keyword arguments, a dict with string keys, kept
    in insertion order. *)
Definition Values := list (string * string).

(** The configuration values the module meets: the prefixes are strings,
    [BLUEPRINTS_URL_PREFIXES] is a dict, anything else is an object on
    which [+ str] raises [TypeError]. *)
Inductive Val :=
| Str (s : string)
| NoneVal
| Int (z : Z)
| Dict (d : gmap string string).

Inductive exn :=
| BuildError (endpoint : string) (values : Values) (method : option string)
| KeyError (key : string)
| AttributeError (attr : string)
| TypeError
| RuntimeError (msg : string)
| OtherError (name : string).

Inductive result (A : Type) :=
| Ok (a : A)
| Raise (e : exn).
Arguments Ok {A} a.
Arguments Raise {A} e.

(** [except BuildError] *)
Definition is_BuildError (e : exn) : bool :=
  match e with BuildError _ _ _ => true | _ => false end.

Definition raises_BuildError {A} (r : result A) : bool :=
  match r with Ok _ => false | Raise e => is_BuildError e end.

(** [values[k]] / [k in values] on the keyword dict *)
Fixpoint get (values : Values) (k : string) : option string :=
  match values with
  | [] => None
  | (k', v) :: rest => if String.eqb k' k then Some v else get rest k
  end.

End Py.

(** ** The fragment of werkzeug.routing used by the module

    Rules are URL patterns made of static text and [<converter:name>]
    placeholders, with an endpoint and an optional set of methods. The
    other attributes of a werkzeug rule (defaults, subdomain, host,
    strict_slashes, websocket, alias) take their default values in every
    rule the module creates and are left out; every converter builds like
    the default one. Rules are kept in the order [iter_rules] yields
    them. *)

Module Werkzeug.
Import Py.

Record Rule := mkRule {
  rule : string;
  endpoint : string;
  methods : option (list string);
}.

(** [Rule(string, endpoint=endpoint)]: [methods] defaults to [None]. *)
Definition Rule_new (pattern : string) (ep : string) : Rule :=
  {| rule := pattern; endpoint := ep; methods := None |}.

Record Map := mkMap { rules : list Rule }.

(** [Map(rules)], for rules whose converters the new map knows: werkzeug
    looks the converter of every placeholder up when a rule is added and
    raises [LookupError] for one the map does not have. *)
Definition Map_new (rs : list Rule) : Map := {| rules := rs |}.

(** [Map.iter_rules()] *)
Definition iter_rules (m : Map) : list Rule := rules m.

Inductive Part :=
| Static (text : string)
| Dynamic (converter : string) (variable : string).

(** Splits [conv(args):name] at its last colon. *)
Fixpoint split_converter (acc : string) (s : string) : string * string :=
  match s with
  | "" => ("default", String.rev acc)
  | String c s' =>
      if Ascii.eqb c ":" then
        match split_converter "" s' with
        | ("default", name) => (String.rev acc, name)
        | (conv, name) => (String.rev acc +:+ ":" +:+ conv, name)
        end
      else split_converter (String c acc) s'
  end.

Definition static_part (acc : string) : list Part :=
  match acc with "" => [] | _ => [Static (String.rev acc)] end.

(** The parts of a pattern, left to right: [inside] holds the text read
    since an opening [<], [acc] the static text read so far (both
    reversed). *)
Fixpoint parse_rule_go (acc : string) (inside : option string) (s : string)
  : list Part :=
  match s with
  | "" =>
      match inside with
      | None => static_part acc
      | Some v => static_part (v +:+ String "<" acc)
      end
  | String c s' =>
      match inside with
      | None =>
          if Ascii.eqb c "<" then static_part acc ++ parse_rule_go "" (Some "") s'
          else parse_rule_go (String c acc) None s'
      | Some v =>
          if Ascii.eqb c ">" then
            let '(conv, name) := split_converter "" (String.rev v) in
            Dynamic conv name :: parse_rule_go "" None s'
          else parse_rule_go acc (Some (String c v)) s'
      end
  end.

Definition parse_rule (pattern : string) : list Part :=
  parse_rule_go "" None pattern.

(** [Rule.arguments] *)
Definition arguments (r : Rule) : list string :=
  omap (fun p => match p with Dynamic _ v => Some v | Static _ => None end)
       (parse_rule (rule r)).

(** *** Percent-encoding ([urllib.parse.quote]) *)

Fixpoint in_string (c : ascii) (s : string) : bool :=
  match s with
  | "" => false
  | String c' s' => Ascii.eqb c c' || in_string c s'
  end.

Definition always_safe : string :=
  "ABCDEFGHIJKLMNOPQRSTUVWXYZabcdefghijklmnopqrstuvwxyz0123456789_.-~".

Definition hex_digit (n : nat) : ascii :=
  match String.get n "0123456789ABCDEF" with Some c => c | None => "0"%char end.

Definition percent (c : ascii) : string :=
  let n := nat_of_ascii c in
  String "%" (String (hex_digit (n / 16)) (String (hex_digit (n mod 16)) "")).

Fixpoint quote (safe : string) (s : string) : string :=
  match s with
  | "" => ""
  | String c s' =>
      (if in_string c always_safe || in_string c safe
       then String c "" else percent c) +:+ quote safe s'
  end.

Fixpoint replace_space (s : string) : string :=
  match s with
  | "" => ""
  | String c s' => String (if Ascii.eqb c " " then "+"%char else c) (replace_space s')
  end.

(** [urllib.parse.quote_plus] *)
Definition quote_plus (safe : string) (s : string) : string :=
  replace_space (quote (safe +:+ " ") s).

Definition path_safe : string := "!$&'()*+,/:;=@".
Definition query_safe : string := "!$'()*,/:;?@".

(** [urlencode(items, safe=...)] *)
Definition urlencode (items : Values) : string :=
  String.concat "&"
    (map (fun '(k, v) => quote_plus query_safe k +:+ "=" +:+ quote_plus query_safe v)
         items).

(** *** Building from one rule *)

Definition method_allowed (r : Rule) (method : option string) : bool :=
  match method, methods r with
  | Some m, Some ms => existsb (String.eqb m) ms
  | _, _ => true
  end.

(** [Rule.suitable_for(values, method)] *)
Definition Rule_suitable_for (r : Rule) (values : Values) (method : option string)
  : bool :=
  method_allowed r method
  && forallb (fun k => bool_decide (is_Some (get values k))) (arguments r).

Fixpoint build_parts (parts : list Part) (values : Values) : option string :=
  match parts with
  | [] => Some ""
  | Static text :: rest =>
      url ← build_parts rest values; Some (quote path_safe text +:+ url)
  | Dynamic _ name :: rest =>
      v ← get values name;
      url ← build_parts rest values; Some (quote path_safe v +:+ url)
  end.

(** The values that no placeholder consumed, appended as a query string. *)
Definition unknown_values (r : Rule) (values : Values) : Values :=
  filter (fun kv => negb (existsb (String.eqb (fst kv)) (arguments r))) values.

(** [Rule.build(values, append_unknown=True)] *)
Definition Rule_build (r : Rule) (values : Values) : option string :=
  url ← build_parts (parse_rule (rule r)) values;
  match unknown_values r values with
  | [] => Some url
  | extra => Some (url +:+ "?" +:+ urlencode extra)
  end.

(** *** Building from a map *)

(** Stable sort by [Rule.build_compare_key]: rules with more arguments
    come first, rules with as many keep their order ([r] is put before
    the first rule that has no more arguments than it has). *)
Fixpoint insert_by_key (r : Rule) (sorted : list Rule) : list Rule :=
  match sorted with
  | [] => [r]
  | r' :: rest =>
      if Nat.leb (length (arguments r')) (length (arguments r))
      then r :: sorted
      else r' :: insert_by_key r rest
  end.

Definition sort_by_key (rs : list Rule) : list Rule :=
  foldr insert_by_key [] rs.

(** [Map._rules_by_endpoint.get(endpoint, ())] after [Map.update()] *)
Definition rules_by_endpoint (m : Map) (ep : string) : list Rule :=
  sort_by_key (filter (fun r => String.eqb (endpoint r) ep) (rules m)).

(** The endpoints of the rules, each once, in order of first appearance. *)
Fixpoint endpoints_in_order (seen : list string) (rs : list Rule) : list string :=
  match rs with
  | [] => []
  | r :: rest =>
      if existsb (String.eqb (endpoint r)) seen then endpoints_in_order seen rest
      else endpoint r :: endpoints_in_order (endpoint r :: seen) rest
  end.

(** [Map.add(rule)], as [iter_rules] then yields the map: the rules
    grouped by endpoint, the groups in order of first registration, each
    group sorted by build key. *)
Definition Map_add (m : Map) (r : Rule) : Map :=
  let rs := (rules m ++ [r])%list in
  Map_new (flat_map (rules_by_endpoint (Map_new rs)) (endpoints_in_order [] rs)).

(** Some rule of the map carries the endpoint. *)
Definition has_endpoint (m : Map) (ep : string) : bool :=
  existsb (fun r => String.eqb (endpoint r) ep) (rules m).

(** The rule accepts every method. *)
Definition no_methods (r : Rule) : Prop := methods r = None.

Fixpoint first_build (rs : list Rule) (values : Values) (method : option string)
  : option string :=
  match rs with
  | [] => None
  | r :: rest =>
      if Rule_suitable_for r values method then
        match Rule_build r values with
        | Some url => Some url
        | None => first_build rest values method
        end
      else first_build rest values method
  end.

Definition default_method : string := "GET".

(** [MapAdapter._partial_build] *)
Definition MapAdapter_partial_build (m : Map) (ep : string) (values : Values)
    (method : option string) : option string :=
  let rs := rules_by_endpoint m ep in
  match method with
  | None =>
      match first_build rs values (Some default_method) with
      | Some rv => Some rv
      | None => first_build rs values None
      end
  | Some _ => first_build rs values method
  end.

Fixpoint lstrip_slash (s : string) : string :=
  match s with
  | String c s' => if Ascii.eqb c "/" then lstrip_slash s' else s
  | "" => ""
  end.

(** [m.bind("").build(endpoint, values, method=method, force_external=False)]:
    the adapter is bound with script name [/] and the default subdomain, so
    the result is the path relative to the server root. *)
Definition MapAdapter_build (m : Map) (ep : string) (values : Values)
    (method : option string) : result string :=
  match MapAdapter_partial_build m ep values method with
  | None => Raise (BuildError ep values method)
  | Some path => Ok ("/" +:+ lstrip_slash path)
  end.

End Werkzeug.

Import Py.

(** ** The Flask application object *)

Module Flask.

(** A view function: called with the matched arguments, returns a body. *)
Definition ViewFunction := Values -> string.

(** The attributes of [flask.Flask] the module touches. The routing table
    holds no callable: Flask keeps the handlers apart, in
    [view_functions], keyed by endpoint. *)
Record t := mk {
  import_name : string;
  config : gmap string Val;
  url_map : Werkzeug.Map;
  view_functions : gmap string ViewFunction;
}.

Definition send_static_file : ViewFunction :=
  fun values => default "" (get values "filename").

(** The route every new application registers for its static folder. *)
Definition static_rule : Werkzeug.Rule :=
  Werkzeug.mkRule "/static/<path:filename>" "static" (Some ["GET"; "HEAD"; "OPTIONS"]).

(** [Flask(import_name)]; the default configuration keys, none of which
    the module reads, are left out. *)
Definition new (name : string) : t :=
  {| import_name := name;
     config := ∅;
     url_map := Werkzeug.Map_new [static_rule];
     view_functions := {[ "static" := send_static_file ]} |}.

(** [app.config[key] = value] *)
Definition set_config (key : string) (value : Val) (app : t) : t :=
  {| import_name := import_name app;
     config := <[key := value]> (config app);
     url_map := url_map app;
     view_functions := view_functions app |}.

(** [app.add_url_rule(pattern, endpoint, view_func, methods=...)], with
    [ms] the methods the registered rule ends up with. *)
Definition add_url_rule (pattern ep : string) (view : ViewFunction)
    (ms : list string) (app : t) : t :=
  {| import_name := import_name app;
     config := config app;
     url_map := Werkzeug.Map_add (url_map app) (Werkzeug.mkRule pattern ep (Some ms));
     view_functions := <[ep := view]> (view_functions app) |}.

End Flask.

(** ** The resolver instance and the world it runs in *)

(** The attributes of an [InvenioAppsUrlsBuilder]. [url_map] is [None]
    while the attribute does not exist: the constructor does not assign
    it, [setup] does. *)
Record InvenioAppsUrlsBuilder := mkBuilder {
  cfg_of_app_prefix : string;
  cfg_of_other_app_prefix : string;
  groups_of_other_app_entrypoints : list string;
  url_map : option Werkzeug.Map;
}.

(** [InvenioAppsUrlsBuilder.__init__] *)
Definition __init__ (cfg_app cfg_other : string) (groups : list string)
  : InvenioAppsUrlsBuilder :=
  {| cfg_of_app_prefix := cfg_app;
     cfg_of_other_app_prefix := cfg_other;
     groups_of_other_app_entrypoints := groups;
     url_map := None |}.

(** What a call can read or write: the application behind the
    [current_app] proxy ([None] outside an application context) and the
    resolver object [self]. *)
Record World := mkWorld {
  app_ctx : option Flask.t;
  this : InvenioAppsUrlsBuilder;
}.

Inductive Table := Own | Mirror.

(** The reads a call makes of its collaborators, in order. *)
Inductive Event :=
| UrlMapRead (t : Table)
| BuildCall (t : Table)
| ConfigRead (key : string).

#[global] Instance Table_eq_dec : EqDecision Table.
Proof. solve_decision. Defined.
#[global] Instance Event_eq_dec : EqDecision Event.
Proof. solve_decision. Defined.

(** ** The monad of the methods: state, exceptions, and the log of reads *)

Record Outcome (A : Type) := mkOutcome {
  res : result A;
  world : World;
  trace : list Event;
}.
Arguments mkOutcome {A} res world trace.
Arguments res {A} o.
Arguments world {A} o.
Arguments trace {A} o.

Definition M (A : Type) : Type := World -> Outcome A.

Definition ret {A} (a : A) : M A := fun w => mkOutcome (Ok a) w [].

Definition raise {A} (e : exn) : M A := fun w => mkOutcome (Raise e) w [].

Definition bind {A B} (m : M A) (f : A -> M B) : M B := fun w =>
  match m w with
  | mkOutcome (Ok a) w1 t1 =>
      match f a w1 with
      | mkOutcome r w2 t2 => mkOutcome r w2 (t1 ++ t2)
      end
  | mkOutcome (Raise e) w1 t1 => mkOutcome (Raise e) w1 t1
  end.

#[global] Instance M_ret : MRet M := @ret.
#[global] Instance M_bind : MBind M := fun A B f m => bind m f.

(** [try: body / except: handler]; the handler re-raises what it does not
    catch. *)
Definition try_except {A} (body : M A) (handler : exn -> M A) : M A := fun w =>
  match body w with
  | mkOutcome (Ok a) w1 t1 => mkOutcome (Ok a) w1 t1
  | mkOutcome (Raise e) w1 t1 =>
      match handler e w1 with
      | mkOutcome r w2 t2 => mkOutcome r w2 (t1 ++ t2)
      end
  end.

Definition tell (ev : Event) : M unit := fun w => mkOutcome (Ok tt) w [ev].

Definition lift {A} (r : result A) : M A := fun w => mkOutcome r w [].

(** [self] *)
Definition get_self : M InvenioAppsUrlsBuilder := fun w => mkOutcome (Ok (this w)) w [].

(** [current_app]: the proxy raises outside an application context (the
    message is the first line of Flask's). *)
Definition current_app : M Flask.t := fun w =>
  match app_ctx w with
  | Some app => mkOutcome (Ok app) w []
  | None => mkOutcome (Raise (RuntimeError "Working outside of application context.")) w []
  end.

(** [current_app.url_map] *)
Definition current_app_url_map : M Werkzeug.Map :=
  app ← current_app; _ ← tell (UrlMapRead Own); mret (Flask.url_map app).

(** [self.url_map] *)
Definition self_url_map : M Werkzeug.Map :=
  self ← get_self;
  _ ← tell (UrlMapRead Mirror);
  match url_map self with
  | Some m => mret m
  | None => raise (AttributeError "url_map")
  end.

(** [self.url_map = m] *)
Definition set_self_url_map (m : Werkzeug.Map) : M unit := fun w =>
  let self := this w in
  mkOutcome (Ok tt)
    {| app_ctx := app_ctx w;
       this := {| cfg_of_app_prefix := cfg_of_app_prefix self;
                  cfg_of_other_app_prefix := cfg_of_other_app_prefix self;
                  groups_of_other_app_entrypoints := groups_of_other_app_entrypoints self;
                  url_map := Some m |} |}
    [].

(** [current_app.config[key]] *)
Definition current_app_config_getitem (key : string) : M Val :=
  app ← current_app;
  _ ← tell (ConfigRead key);
  match Flask.config app !! key with
  | Some v => mret v
  | None => raise (KeyError key)
  end.

(** [current_app.config[key] = value], for callers that reconfigure the
    application between two builds. *)
Definition current_app_config_setitem (key : string) (value : Val) : M unit := fun w =>
  match app_ctx w with
  | Some app =>
      mkOutcome (Ok tt)
        {| app_ctx := Some (Flask.set_config key value app); this := this w |} []
  | None => mkOutcome (Raise (RuntimeError "Working outside of application context.")) w []
  end.

(** [left + right] with [right] a [str] *)
Definition add (left : Val) (right : string) : M string :=
  match left with
  | Str s => mret (s +:+ right)
  | _ => raise TypeError
  end.

(** [current_app.config[key] + path], as a result: what prefixing a built
    path comes to. *)
Definition prefixed (app : Flask.t) (key : string) (path : string) : result string :=
  match Flask.config app !! key with
  | Some (Str p) => Ok (p +:+ path)
  | Some _ => Raise TypeError
  | None => Raise (KeyError key)
  end.

(** ** InvenioAppsUrlsBuilder

    The two collaborators the class calls and [urls.py] does not define
    are parameters: the reverse build of a bound map adapter, and
    [blueprint_loader] (imported from [invenio_base.app]), which registers
    the blueprints of the named entry-point groups on an application or
    raises. The reverse build is a function of the table: the library
    sorts the rule lists of a map lazily, on first use, which changes
    nothing of what the map holds or builds and is not modelled as a
    write. *)

Section Methods.

Variable adapter_build :
  Werkzeug.Map -> string -> Values -> option string -> result string.
Variable blueprint_loader : Flask.t -> list string -> result Flask.t.

(** [url_map.bind("").build(endpoint, values, method=method, force_external=False)] *)
Definition bind_build (t : Table) (m : Werkzeug.Map) (endpoint : string)
    (values : Values) (method : option string) : M string :=
  _ ← tell (BuildCall t); lift (adapter_build m endpoint values method).

(** The rule copied without anything but its pattern and endpoint. *)
Definition copy_rule (r : Werkzeug.Rule) : Werkzeug.Rule :=
  Werkzeug.Rule_new (Werkzeug.rule r) (Werkzeug.endpoint r).

(** The throwaway application of [setup], before [blueprint_loader] runs
    on it. *)
Definition shell_before_loading (app : Flask.t) : Flask.t :=
  Flask.set_config "BLUEPRINTS_URL_PREFIXES"
    (default (Dict ∅) (Flask.config app !! "BLUEPRINTS_URL_PREFIXES"))
    (Flask.new "InvenioAppsUrlsBuilder").

Definition setup (app : Flask.t) : M unit :=
  let app_tmp := Flask.new "InvenioAppsUrlsBuilder" in
  let app_tmp :=
    Flask.set_config "BLUEPRINTS_URL_PREFIXES"
      (default (Dict ∅) (Flask.config app !! "BLUEPRINTS_URL_PREFIXES")) app_tmp in
  self ← get_self;
  app_tmp ← lift (blueprint_loader app_tmp (groups_of_other_app_entrypoints self));
  set_self_url_map
    (Werkzeug.Map_new (map copy_rule (Werkzeug.iter_rules (Flask.url_map app_tmp)))).

Definition prefix (site_cfg : string) : M Val :=
  current_app_config_getitem site_cfg.

(** The body of the [try] in [build]. *)
Definition build_own (endpoint : string) (values : Values) (method : option string)
  : M string :=
  m ← current_app_url_map;
  url_relative ← bind_build Own m endpoint values method;
  self ← get_self;
  p ← prefix (cfg_of_app_prefix self);
  add p url_relative.

(** The statements of [build] after the [try]. *)
Definition build_other (endpoint : string) (values : Values) (method : option string)
  : M string :=
  m ← self_url_map;
  url_relative ← bind_build Mirror m endpoint values method;
  self ← get_self;
  p ← prefix (cfg_of_other_app_prefix self);
  add p url_relative.

Definition build (endpoint : string) (values : Values) (method : option string)
  : M string :=
  try_except (build_own endpoint values method)
    (fun e => if is_BuildError e then build_other endpoint values method
              else raise e).

(** A caller that builds a URL, sets a configuration key, and builds the
    same URL again. *)
Definition build_reconfigure_build (endpoint : string) (values : Values)
    (method : option string) (key : string) (value : Val) : M (string * string) :=
  first ← build endpoint values method;
  _ ← current_app_config_setitem key value;
  second ← build endpoint values method;
  mret (first, second).

(** Two calls in a row. *)
Definition build_twice (endpoint : string) (values : Values)
    (method : option string) : M (string * string) :=
  first ← build endpoint values method;
  second ← build endpoint values method;
  mret (first, second).

(** [create_invenio_apps_urls_builder_factory(...)]: the returned
    [_factory], run on a fresh object. *)
Definition create_invenio_apps_urls_builder_factory
    (cfg_app cfg_other : string) (groups : list string)
    (app : Flask.t) : result InvenioAppsUrlsBuilder :=
  let builder := __init__ cfg_app cfg_other groups in
  let o := setup app {| app_ctx := None; this := builder |} in
  match res o with
  | Ok _ => Ok (this (world o))
  | Raise e => Raise e
  end.

End Methods.

(** ** A two-application deployment, for the scenarios *)

Module Demo.

Definition record_view : Flask.ViewFunction :=
  fun values => "record " +:+ default "" (get values "id").
Definition search_view : Flask.ViewFunction := fun _ => "results".

(** The routes of the running application: [records.detail] (and the
    static route of every Flask application). *)
Definition ui_routes : Flask.t :=
  Flask.add_url_rule "/records/<id>" "records.detail" record_view
    ["GET"; "HEAD"; "OPTIONS"] (Flask.new "ui").

(** The running application, with both prefixes configured. *)
Definition ui_app : Flask.t :=
  Flask.set_config "SITE_UI_URL" (Str "https://main.example.org")
    (Flask.set_config "SITE_API_URL" (Str "https://archive.example.org") ui_routes).


Definition groups : list string := ["invenio_base.api_blueprints"].

(** The blueprints of the other application: [search.results], which
    only answers GET, HEAD and OPTIONS. *)
Definition loader (app : Flask.t) (entry_points : list string) : result Flask.t :=
  if bool_decide ("invenio_base.api_blueprints" ∈ entry_points)
  then Ok (Flask.add_url_rule "/search" "search.results" search_view
             ["GET"; "HEAD"; "OPTIONS"] app)
  else Raise (OtherError "ModuleNotFoundError").

(** The shell [setup] gets back from [loader]. *)
Definition shell : Flask.t :=
  Flask.add_url_rule "/search" "search.results" search_view
    ["GET"; "HEAD"; "OPTIONS"] (shell_before_loading ui_app).

(** The table [setup] makes of it. *)
Definition mirror : Werkzeug.Map :=
  Werkzeug.Map_new
    [Werkzeug.Rule_new "/static/<path:filename>" "static";
     Werkzeug.Rule_new "/search" "search.results"].

Definition fresh_builder : InvenioAppsUrlsBuilder :=
  __init__ "SITE_UI_URL" "SITE_API_URL" groups.

(** The resolver as the factory leaves it. *)
Definition builder : InvenioAppsUrlsBuilder :=
  match create_invenio_apps_urls_builder_factory loader
          "SITE_UI_URL" "SITE_API_URL" groups ui_app with
  | Ok b => b
  | Raise _ => fresh_builder
  end.

(** Inside an application context of [ui_app]. *)
Definition w : World := {| app_ctx := Some ui_app; this := builder |}.

(** The same request served before [setup] ran. *)
Definition w_no_setup : World := {| app_ctx := Some ui_app; this := fresh_builder |}.


Definition build := build Werkzeug.MapAdapter_build.

End Demo.


(** ** The interface and its caller *)

(** [InvenioUrlsBuilder]: the abstract class with the one method [build].
    An implementation is given by what its [build] returns or raises for
    [self], the arguments and the application behind [current_app]. *)
Module InvenioUrlsBuilder.
Class t (B : Type) :=
  build : B -> string -> Values -> option string -> option Flask.t -> result string.
End InvenioUrlsBuilder.

(** The application behind [current_app] with its [invenio_urls]
    attribute, [None] while nothing assigned it. *)
Record AppContext (B : Type) := mkAppContext {
  ctx_app : Flask.t;
  invenio_urls : option B;
}.
Arguments mkAppContext {B} ctx_app invenio_urls.
Arguments ctx_app {B} a.
Arguments invenio_urls {B} a.

(** [invenio_url_for(endpoint, _method=_method, **values)] *)
Definition invenio_url_for {B} `{InvenioUrlsBuilder.t B} (ctx : option (AppContext B))
    (endpoint : string) (_method : option string) (values : Values) : result string :=
  match ctx with
  | None => Raise (RuntimeError "Working outside of application context.")
  | Some c =>
      match invenio_urls c with
      | None => Raise (AttributeError "invenio_urls")
      | Some builder =>
          InvenioUrlsBuilder.build builder endpoint values _method (Some (ctx_app c))
      end
  end.

Section Implementation.

Variable adapter_build :
  Werkzeug.Map -> string -> Values -> option string -> result string.

(** [InvenioAppsUrlsBuilder] as an [InvenioUrlsBuilder]: its [build], run
    with the object as [self]. *)
Definition InvenioAppsUrlsBuilder_impl : InvenioUrlsBuilder.t InvenioAppsUrlsBuilder :=
  fun self endpoint values method ctx =>
    res (build adapter_build endpoint values method {| app_ctx := ctx; this := self |}).

End Implementation.

(** The world after [current_app.config[key] = value] (no change outside
    an application context). *)
Definition reconfigured (key : string) (value : Val) (w : World) : World :=
  {| app_ctx := Flask.set_config key value <$> app_ctx w; this := this w |}.

(** The application context when [setup] runs: none. *)
Definition at_startup (self : InvenioAppsUrlsBuilder) : World :=
  {| app_ctx := None; this := self |}.

(** ** More of the deployment: misconfigurations *)

Module DemoEdge.

(** The running application with [None] stored as own prefix. *)
Definition ui_app_none_prefix : Flask.t :=
  Flask.set_config "SITE_UI_URL" NoneVal Demo.ui_app.

Definition w_none_prefix : World :=
  {| app_ctx := Some ui_app_none_prefix; this := Demo.builder |}.

(** A call made outside every application context. *)
Definition w_outside : World := {| app_ctx := None; this := Demo.builder |}.

(** A resolver whose entry-point group names nothing installed. *)
Definition builder_bad_group : InvenioAppsUrlsBuilder :=
  __init__ "SITE_UI_URL" "SITE_API_URL" ["no.such.group"].

(** An application that shares nothing with [Demo.ui_app] but the absence
    of [BLUEPRINTS_URL_PREFIXES]. *)
Definition other_app : Flask.t :=
  Flask.set_config "DEBUG" (Int 1) (Flask.new "unrelated").

(** [Demo.ui_app] with the resolver of the factory attached. *)
Definition served : AppContext InvenioAppsUrlsBuilder :=
  {| ctx_app := Demo.ui_app; invenio_urls := Some Demo.builder |}.

End DemoEdge.

(** * Properties *)

(** ** What one call of [build] does, case by case

    The lemmas of this section hold for every reverse-build function, so
    for the routing library whatever its version. *)

Section BuildFacts.

Variable adapter_build :
  Werkzeug.Map -> string -> Values -> option string -> result string.

Implicit Types (w : World) (app : Flask.t) (endpoint : string)
  (values : Values) (method : option string).

Ltac run :=
  unfold build, try_except, build_own, build_other,
    prefix, bind_build, current_app_url_map, self_url_map,
    current_app_config_getitem, current_app, get_self, add, tell, lift, raise,
    prefixed, mbind, M_bind, mret, M_ret, bind, ret;
  simpl.

Lemma build_own_outside_context w endpoint values method :
  app_ctx w = None ->
  build_own adapter_build endpoint values method w
  = mkOutcome (Raise (RuntimeError "Working outside of application context.")) w [].
Proof. intros Hctx. run. by rewrite Hctx. Qed.

Lemma build_own_raises w app endpoint values method e :
  app_ctx w = Some app ->
  adapter_build (Flask.url_map app) endpoint values method = Raise e ->
  build_own adapter_build endpoint values method w
  = mkOutcome (Raise e) w [UrlMapRead Own; BuildCall Own].
Proof. intros Hctx Hb. run. rewrite Hctx. cbn. by rewrite Hb. Qed.

Lemma build_own_returns w app endpoint values method path :
  app_ctx w = Some app ->
  adapter_build (Flask.url_map app) endpoint values method = Ok path ->
  build_own adapter_build endpoint values method w
  = mkOutcome (prefixed app (cfg_of_app_prefix (this w)) path) w
      [UrlMapRead Own; BuildCall Own; ConfigRead (cfg_of_app_prefix (this w))].
Proof.
  intros Hctx Hb. run. rewrite Hctx. cbn. rewrite Hb. cbn. rewrite Hctx. cbn.
  destruct (Flask.config app !! cfg_of_app_prefix (this w)) as [[]|]; reflexivity.
Qed.

Lemma build_other_unset w endpoint values method :
  url_map (this w) = None ->
  build_other adapter_build endpoint values method w
  = mkOutcome (Raise (AttributeError "url_map")) w [UrlMapRead Mirror].
Proof. intros Hm. run. by rewrite Hm. Qed.

Lemma build_other_raises w mirror endpoint values method e :
  url_map (this w) = Some mirror ->
  adapter_build mirror endpoint values method = Raise e ->
  build_other adapter_build endpoint values method w
  = mkOutcome (Raise e) w [UrlMapRead Mirror; BuildCall Mirror].
Proof. intros Hm Hb. run. rewrite Hm. cbn. by rewrite Hb. Qed.

Lemma build_other_returns w app mirror endpoint values method path :
  app_ctx w = Some app ->
  url_map (this w) = Some mirror ->
  adapter_build mirror endpoint values method = Ok path ->
  build_other adapter_build endpoint values method w
  = mkOutcome (prefixed app (cfg_of_other_app_prefix (this w)) path) w
      [UrlMapRead Mirror; BuildCall Mirror;
       ConfigRead (cfg_of_other_app_prefix (this w))].
Proof.
  intros Hctx Hm Hb. run. rewrite Hm. cbn. rewrite Hb. cbn. rewrite Hctx. cbn.
  destruct (Flask.config app !! cfg_of_other_app_prefix (this w)) as [[]|]; reflexivity.
Qed.

(** The second half depends on the method hint through the built path
    only. *)
Lemma build_other_same_path w mirror endpoint values method method' path :
  url_map (this w) = Some mirror ->
  adapter_build mirror endpoint values method = Ok path ->
  adapter_build mirror endpoint values method' = Ok path ->
  build_other adapter_build endpoint values method w
  = build_other adapter_build endpoint values method' w.
Proof. intros Hm Hb Hb'. run. rewrite Hm. cbn. by rewrite Hb, Hb'. Qed.

(** Neither half of [build] assigns anything. *)
Lemma build_own_world w endpoint values method :
  world (build_own adapter_build endpoint values method w) = w.
Proof.
  destruct (app_ctx w) as [app|] eqn:Hctx.
  - destruct (adapter_build (Flask.url_map app) endpoint values method) eqn:Hb.
    + by erewrite build_own_returns.
    + by erewrite build_own_raises.
  - by rewrite build_own_outside_context.
Qed.

Lemma build_other_world w endpoint values method :
  world (build_other adapter_build endpoint values method w) = w.
Proof.
  run. destruct (url_map (this w)) as [mirror|]; cbn; [|done].
  destruct (adapter_build mirror endpoint values method); cbn; [|done].
  destruct (app_ctx w) as [app|]; cbn; [|done].
  by destruct (Flask.config app !! _) as [[]|].
Qed.

(** [build] is its first half unless that raises [BuildError]; then it is
    the first half followed by the second. *)
Lemma build_no_fallback w endpoint values method :
  raises_BuildError (res (build_own adapter_build endpoint values method w)) = false ->
  build adapter_build endpoint values method w
  = build_own adapter_build endpoint values method w.
Proof.
  intros Hr. unfold build, try_except.
  destruct (build_own adapter_build endpoint values method w) as [[path|e] w' t];
    cbn in *; [done|].
  rewrite Hr. unfold raise. by rewrite app_nil_r.
Qed.

Lemma build_fallback w endpoint values method :
  raises_BuildError (res (build_own adapter_build endpoint values method w)) = true ->
  build adapter_build endpoint values method w
  = let o' := build_other adapter_build endpoint values method w in
    mkOutcome (res o') (world o')
      (trace (build_own adapter_build endpoint values method w) ++ trace o').
Proof.
  intros Hr. unfold build, try_except.
  pose proof (build_own_world w endpoint values method) as Hw.
  destruct (build_own adapter_build endpoint values method w) as [[path|e] w' t];
    cbn in *; [done|].
  rewrite Hr, Hw. by destruct (build_other adapter_build endpoint values method w).
Qed.

Lemma build_world w endpoint values method :
  world (build adapter_build endpoint values method w) = w.
Proof.
  destruct (raises_BuildError (res (build_own adapter_build endpoint values method w))) eqn:Hr.
  - rewrite build_fallback by done. cbn. apply build_other_world.
  - rewrite build_no_fallback by done. apply build_own_world.
Qed.


Lemma build_own_trace_no_mirror w endpoint values method :
  (UrlMapRead Mirror ∉ trace (build_own adapter_build endpoint values method w))
  /\ (BuildCall Mirror ∉ trace (build_own adapter_build endpoint values method w)).
Proof.
  destruct (app_ctx w) as [app|] eqn:Hctx.
  - destruct (adapter_build (Flask.url_map app) endpoint values method) eqn:Hb.
    + erewrite build_own_returns by done. cbn.
      rewrite !not_elem_of_cons. split; repeat split; try done; apply not_elem_of_nil.
    + erewrite build_own_raises by done. cbn.
      rewrite !not_elem_of_cons. split; repeat split; try done; apply not_elem_of_nil.
  - rewrite build_own_outside_context by done. cbn. split; apply not_elem_of_nil.
Qed.


End BuildFacts.

(** ** The two phases of [build] *)

Section BuildClaims.

Variable adapter_build :
  Werkzeug.Map -> string -> Values -> option string -> result string.

Implicit Types (w : World) (app : Flask.t) (endpoint : string)
  (values : Values) (method : option string).

(** C1. When the build against the routing table of the current
    application succeeds, [build] returns the own-application prefix read
    from the configuration followed by that path, whatever the mirrored
    table holds (the statement does not constrain [url_map (this w)]): the
    call reads the own table, builds on it, reads the own prefix, and
    neither reads nor builds on the mirrored table. *)
Theorem build_own_table_first w app endpoint values method path p :
  app_ctx w = Some app ->
  adapter_build (Flask.url_map app) endpoint values method = Ok path ->
  Flask.config app !! cfg_of_app_prefix (this w) = Some (Str p) ->
  let o := build adapter_build endpoint values method w in
  res o = Ok (p +:+ path)
  /\ trace o = [UrlMapRead Own; BuildCall Own; ConfigRead (cfg_of_app_prefix (this w))]
  /\ (UrlMapRead Mirror ∉ trace o)
  /\ (BuildCall Mirror ∉ trace o).
Proof.
  intros Hctx Hb Hp o. subst o.
  pose proof (build_own_returns adapter_build w app endpoint values method path Hctx Hb) as Hown.
  unfold prefixed in Hown. rewrite Hp in Hown.
  rewrite build_no_fallback by (by rewrite Hown).
  split; [by rewrite Hown|]. split; [by rewrite Hown|].
  apply build_own_trace_no_mirror.
Qed.


(** The outcome of [build] when the own table builds the path. *)
Lemma build_of_own_path w app endpoint values method path :
  app_ctx w = Some app ->
  adapter_build (Flask.url_map app) endpoint values method = Ok path ->
  build adapter_build endpoint values method w
  = mkOutcome (prefixed app (cfg_of_app_prefix (this w)) path) w
      [UrlMapRead Own; BuildCall Own; ConfigRead (cfg_of_app_prefix (this w))].
Proof.
  intros Hctx Hb.
  pose proof (build_own_returns adapter_build w app endpoint values method path Hctx Hb) as Hown.
  rewrite build_no_fallback; [done|].
  rewrite Hown. cbn. unfold prefixed. by destruct (Flask.config app !! _) as [[]|].
Qed.

(** The outcome of [build] when the own table raises [BuildError] and the
    mirrored table builds the path. *)
Lemma build_of_other_path w app mirror endpoint values method path :
  app_ctx w = Some app ->
  raises_BuildError (adapter_build (Flask.url_map app) endpoint values method) = true ->
  url_map (this w) = Some mirror ->
  adapter_build mirror endpoint values method = Ok path ->
  build adapter_build endpoint values method w
  = mkOutcome (prefixed app (cfg_of_other_app_prefix (this w)) path) w
      [UrlMapRead Own; BuildCall Own; UrlMapRead Mirror; BuildCall Mirror;
       ConfigRead (cfg_of_other_app_prefix (this w))].
Proof.
  intros Hctx Hown Hm Hb.
  destruct (adapter_build (Flask.url_map app) endpoint values method) as [|e] eqn:He;
    [done|].
  pose proof (build_own_raises adapter_build w app endpoint values method e Hctx He) as Ho.
  rewrite build_fallback by (by rewrite Ho).
  rewrite Ho. erewrite build_other_returns by done. reflexivity.
Qed.

(** C5. Whenever [build] returns, the URL is the configured prefix
    followed by the path of the reverse build, nothing else: the prefix is
    the string stored under the resolver's own-prefix key and the path
    comes from the own table, or the own table raised [BuildError], the
    prefix is the string stored under the other-prefix key and the path
    comes from the mirrored table. *)
Theorem build_returns_prefix_then_path w endpoint values method url :
  res (build adapter_build endpoint values method w) = Ok url ->
  exists app key table p path,
    app_ctx w = Some app
    /\ ((table = Flask.url_map app /\ key = cfg_of_app_prefix (this w))
        \/ (raises_BuildError
              (adapter_build (Flask.url_map app) endpoint values method) = true
            /\ url_map (this w) = Some table
            /\ key = cfg_of_other_app_prefix (this w)))
    /\ adapter_build table endpoint values method = Ok path
    /\ Flask.config app !! key = Some (Str p)
    /\ url = p +:+ path.
Proof.
  intros Hres.
  destruct (app_ctx w) as [app|] eqn:Hctx.
  2: { rewrite build_no_fallback in Hres
         by (by rewrite build_own_outside_context).
       by rewrite build_own_outside_context in Hres. }
  destruct (adapter_build (Flask.url_map app) endpoint values method) as [path|e] eqn:Hb.
  - erewrite build_of_own_path in Hres by done. cbn in Hres. unfold prefixed in Hres.
    destruct (Flask.config app !! cfg_of_app_prefix (this w)) as [[p| | |]|] eqn:Hp;
      try discriminate.
    injection Hres as <-.
    exists app, (cfg_of_app_prefix (this w)), (Flask.url_map app), p, path.
    repeat split; auto.
  - pose proof (build_own_raises adapter_build w app endpoint values method e Hctx Hb) as Ho.
    destruct (is_BuildError e) eqn:He.
    + rewrite build_fallback in Hres by (by rewrite Ho). cbn in Hres.
      destruct (url_map (this w)) as [mirror|] eqn:Hm.
      2: { by rewrite build_other_unset in Hres. }
      destruct (adapter_build mirror endpoint values method) as [path|e'] eqn:Hb'.
      2: { by erewrite build_other_raises in Hres. }
      erewrite build_other_returns in Hres by done. cbn in Hres. unfold prefixed in Hres.
      destruct (Flask.config app !! cfg_of_other_app_prefix (this w)) as [[p| | |]|] eqn:Hp;
        try discriminate.
      injection Hres as <-.
      exists app, (cfg_of_other_app_prefix (this w)), mirror, p, path.
      repeat split; auto. right. by rewrite Hb.
    + rewrite build_no_fallback in Hres by (by rewrite Ho). by rewrite Ho in Hres.
Qed.

(** C8. A call of [build] leaves the world (the application, its
    configuration and routing table, the resolver and its mirrored table)
    as it found it, and a second call with the same arguments has the same
    result and makes the same reads; run in a row, the two calls return
    the same URL or raise the same exception. *)
Theorem build_idempotent w endpoint values method :
  let o1 := build adapter_build endpoint values method w in
  let o2 := build adapter_build endpoint values method (world o1) in
  world o1 = w /\ world o2 = w /\ res o2 = res o1 /\ trace o2 = trace o1
  /\ res (build_twice adapter_build endpoint values method w)
     = match res o1 with Ok url => Ok (url, url) | Raise e => Raise e end.
Proof.
  intros o1 o2. subst o1 o2.
  rewrite !build_world. repeat split.
  unfold build_twice, mbind, M_bind, mret, M_ret, bind, ret.
  pose proof (build_world adapter_build w endpoint values method) as Hw.
  destruct (build adapter_build endpoint values method w) as [[url|e] w1 t] eqn:Hrun;
    cbn in *; [|done].
  subst w1. by rewrite Hrun.
Qed.

(** C9. On a resolver that [__init__] built and [setup] never touched, a
    call of [build] whose own-table build raises [BuildError] ends in
    [AttributeError] on [url_map], after trying to read the mirrored
    table; it does not end in [BuildError]. *)
Theorem build_before_setup cfg_app cfg_other groups app endpoint values method :
  raises_BuildError (adapter_build (Flask.url_map app) endpoint values method) = true ->
  let w := {| app_ctx := Some app; this := __init__ cfg_app cfg_other groups |} in
  let o := build adapter_build endpoint values method w in
  res o = Raise (AttributeError "url_map")
  /\ raises_BuildError (res o) = false
  /\ trace o = [UrlMapRead Own; BuildCall Own; UrlMapRead Mirror].
Proof.
  intros Hb w o. subst o.
  destruct (adapter_build (Flask.url_map app) endpoint values method) as [|e] eqn:He;
    [done|].
  pose proof (build_own_raises adapter_build w app endpoint values method e eq_refl He) as Ho.
  rewrite build_fallback by (by rewrite Ho).
  rewrite Ho, build_other_unset by done. done.
Qed.

Lemma config_setitem_run w app key value :
  app_ctx w = Some app ->
  current_app_config_setitem key value w
  = mkOutcome (Ok tt)
      {| app_ctx := Some (Flask.set_config key value app); this := this w |} [].
Proof. intros Hctx. unfold current_app_config_setitem. by rewrite Hctx. Qed.

(** C6. The prefix is read from the configuration during the call and
    nothing is kept for the next one: a call leaves the world unchanged, a
    call that returns has read a prefix key last, and when the prefix key
    is set to another string between two calls the second call returns the
    new prefix (own table and mirrored table alike). When the key that
    the call reads is not in the configuration, the call raises
    [KeyError] for that key. *)
Theorem prefix_read_on_every_call w app endpoint values method :
  app_ctx w = Some app ->
  let o := build adapter_build endpoint values method w in
  let own_key := cfg_of_app_prefix (this w) in
  let other_key := cfg_of_other_app_prefix (this w) in
  world o = w
  /\ (forall url, res o = Ok url ->
      last (trace o) = Some (ConfigRead own_key)
      \/ last (trace o) = Some (ConfigRead other_key))
  /\ (forall path p p',
      adapter_build (Flask.url_map app) endpoint values method = Ok path ->
      Flask.config app !! own_key = Some (Str p) ->
      res (build_reconfigure_build adapter_build endpoint values method
             own_key (Str p') w)
      = Ok (p +:+ path, p' +:+ path))
  /\ (forall mirror path p p',
      raises_BuildError (adapter_build (Flask.url_map app) endpoint values method) = true ->
      url_map (this w) = Some mirror ->
      adapter_build mirror endpoint values method = Ok path ->
      Flask.config app !! other_key = Some (Str p) ->
      res (build_reconfigure_build adapter_build endpoint values method
             other_key (Str p') w)
      = Ok (p +:+ path, p' +:+ path))
  /\ (forall path,
      adapter_build (Flask.url_map app) endpoint values method = Ok path ->
      Flask.config app !! own_key = None ->
      res o = Raise (KeyError own_key))
  /\ (forall mirror path,
      raises_BuildError (adapter_build (Flask.url_map app) endpoint values method) = true ->
      url_map (this w) = Some mirror ->
      adapter_build mirror endpoint values method = Ok path ->
      Flask.config app !! other_key = None ->
      res o = Raise (KeyError other_key)).
Proof.
  intros Hctx o own_key other_key. subst o own_key other_key.
  split; [apply build_world|]. split; [|split; [|split; [|split]]].
  - intros url Hres.
    destruct (adapter_build (Flask.url_map app) endpoint values method) as [path|e] eqn:Hb.
    + left. by erewrite build_of_own_path by done.
    + pose proof (build_own_raises adapter_build w app endpoint values method e Hctx Hb) as Ho.
      destruct (is_BuildError e) eqn:He.
      2: { rewrite build_no_fallback in Hres by (by rewrite Ho). by rewrite Ho in Hres. }
      destruct (url_map (this w)) as [mirror|] eqn:Hm.
      2: { rewrite build_fallback in Hres by (by rewrite Ho).
           by rewrite build_other_unset in Hres. }
      destruct (adapter_build mirror endpoint values method) as [path|e'] eqn:Hb'.
      2: { rewrite build_fallback in Hres by (by rewrite Ho).
           by erewrite build_other_raises in Hres. }
      right. erewrite build_of_other_path; [done..|by rewrite Hb|done|done].
  - intros path p p' Hb Hp.
    unfold build_reconfigure_build, mbind, M_bind, mret, M_ret, bind, ret.
    erewrite build_of_own_path by done. cbn. unfold prefixed at 1. rewrite Hp. cbn.
    erewrite config_setitem_run by done. cbn.
    erewrite build_of_own_path by done. cbn. unfold prefixed, Flask.set_config. cbn.
    by rewrite lookup_insert_eq.
  - intros mirror path p p' Hown Hm Hb Hp.
    unfold build_reconfigure_build, mbind, M_bind, mret, M_ret, bind, ret.
    erewrite build_of_other_path by done. cbn. unfold prefixed at 1. rewrite Hp. cbn.
    erewrite config_setitem_run by done. cbn.
    erewrite build_of_other_path by done. cbn. unfold prefixed, Flask.set_config. cbn.
    by rewrite lookup_insert_eq.
  - intros path Hb Hp. erewrite build_of_own_path by done. cbn.
    unfold prefixed. by rewrite Hp.
  - intros mirror path Hown Hm Hb Hp. erewrite build_of_other_path by done. cbn.
    unfold prefixed. by rewrite Hp.
Qed.

End BuildClaims.

(** ** The routing library: absent endpoints, rules without methods *)

Section WerkzeugFacts.
Import Werkzeug.

Implicit Types (m : Map) (r : Rule) (rs : list Rule) (ep : string)
  (values : Values) (method : option string).

Lemma filter_endpoint_absent rs ep :
  existsb (fun r => String.eqb (endpoint r) ep) rs = false ->
  filter (fun r => String.eqb (endpoint r) ep) rs = [].
Proof.
  induction rs as [|r rs IH]; [done|].
  intros [Hr Hrs]%orb_false_iff.
  rewrite filter_cons_False by (cbn; rewrite Hr; intros []). by apply IH.
Qed.

(** An endpoint that no rule of the map carries cannot be built. *)
Lemma absent_endpoint_BuildError m ep values method :
  has_endpoint m ep = false ->
  MapAdapter_build m ep values method = Raise (BuildError ep values method).
Proof.
  intros Habs. unfold MapAdapter_build, MapAdapter_partial_build, rules_by_endpoint.
  rewrite filter_endpoint_absent by done. cbn. by destruct method.
Qed.

Lemma insert_by_key_no_methods r rs :
  no_methods r -> Forall no_methods rs -> Forall no_methods (insert_by_key r rs).
Proof.
  intros Hr. induction 1 as [|r' rs Hr' Hrs IH].
  - by constructor.
  - unfold insert_by_key; fold insert_by_key.
    destruct (Nat.leb _ _).
    + constructor; [done|]. by constructor.
    + by constructor.
Qed.

Lemma sort_by_key_no_methods rs :
  Forall no_methods rs -> Forall no_methods (sort_by_key rs).
Proof.
  induction 1 as [|r rs Hr Hrs IH]; cbn; [constructor|].
  by apply insert_by_key_no_methods.
Qed.

Lemma rules_by_endpoint_no_methods m ep :
  Forall no_methods (rules m) -> Forall no_methods (rules_by_endpoint m ep).
Proof.
  intros Hall. apply sort_by_key_no_methods.
  apply Forall_forall. intros r [_ Hin]%list_elem_of_filter.
  by eapply Forall_forall in Hall.
Qed.

(** Rules without methods are chosen and built the same way under every
    method hint. *)
Lemma first_build_no_methods rs values method method' :
  Forall no_methods rs ->
  first_build rs values method = first_build rs values method'.
Proof.
  induction 1 as [|r rs Hr Hrs IH]; cbn; [done|].
  unfold Rule_suitable_for, method_allowed. rewrite Hr, IH.
  by destruct method, method'.
Qed.

Lemma partial_build_no_methods m ep values method method' :
  Forall no_methods (rules m) ->
  MapAdapter_partial_build m ep values method
  = MapAdapter_partial_build m ep values method'.
Proof.
  intros Hall%(rules_by_endpoint_no_methods _ ep).
  unfold MapAdapter_partial_build.
  assert (Hnone : forall meth, first_build (rules_by_endpoint m ep) values meth
                      = first_build (rules_by_endpoint m ep) values None)
    by (intros; by apply first_build_no_methods).
  destruct method, method'; rewrite ?(Hnone (Some _)); try done;
    by destruct (first_build (rules_by_endpoint m ep) values None).
Qed.

Lemma copied_rules_no_methods rs : Forall no_methods (map copy_rule rs).
Proof. apply Forall_forall. by intros r (r0 & -> & _)%list_elem_of_fmap. Qed.

End WerkzeugFacts.

(** ** [build] on the routing library *)

Section WerkzeugClaims.

Implicit Types (w : World) (app : Flask.t) (endpoint : string)
  (values : Values) (method : option string).

(** C3. When no rule of the own table carries the endpoint and the
    mirrored table builds the path, [build] returns the other-application
    prefix read from the configuration followed by that path. *)
Theorem build_other_table_prefix w app mirror endpoint values method path p :
  app_ctx w = Some app ->
  Werkzeug.has_endpoint (Flask.url_map app) endpoint = false ->
  url_map (this w) = Some mirror ->
  Werkzeug.MapAdapter_build mirror endpoint values method = Ok path ->
  Flask.config app !! cfg_of_other_app_prefix (this w) = Some (Str p) ->
  res (build Werkzeug.MapAdapter_build endpoint values method w) = Ok (p +:+ path).
Proof.
  intros Hctx Habs Hm Hb Hp.
  erewrite build_of_other_path; [|done| |done..].
  - cbn. unfold prefixed. by rewrite Hp.
  - by rewrite absent_endpoint_BuildError.
Qed.

(** C4. When no rule of the own table and no rule of the mirrored table
    carries the endpoint, [build] raises the [BuildError] of the mirrored
    table: it returns no string, and after the build on the mirrored table
    it consults nothing more. *)
Theorem build_unknown_endpoint w app mirror endpoint values method :
  app_ctx w = Some app ->
  url_map (this w) = Some mirror ->
  Werkzeug.has_endpoint (Flask.url_map app) endpoint = false ->
  Werkzeug.has_endpoint mirror endpoint = false ->
  let o := build Werkzeug.MapAdapter_build endpoint values method w in
  res o = Raise (BuildError endpoint values method)
  /\ (forall url, res o <> Ok url)
  /\ trace o = [UrlMapRead Own; BuildCall Own; UrlMapRead Mirror; BuildCall Mirror]
  /\ world o = w.
Proof.
  intros Hctx Hm Hown Hmirror o. subst o.
  pose proof (build_own_raises Werkzeug.MapAdapter_build w app endpoint values method _ Hctx
                (absent_endpoint_BuildError _ _ values method Hown)) as Ho.
  rewrite build_fallback by (by rewrite Ho).
  rewrite Ho.
  erewrite build_other_raises
    by (try done; by apply absent_endpoint_BuildError).
  done.
Qed.

End WerkzeugClaims.

(** ** When the fallback runs *)

Section FallbackClaim.

Variable adapter_build :
  Werkzeug.Map -> string -> Values -> option string -> result string.

Implicit Types (w : World) (app : Flask.t) (endpoint : string)
  (values : Values) (method : option string).


End FallbackClaim.


(** ** [setup] *)

Section SetupClaims.

Variable blueprint_loader : Flask.t -> list string -> result Flask.t.

Implicit Types (w : World) (app shell : Flask.t).

(** What [setup] stores when the blueprints load. *)
Lemma setup_run w app shell :
  blueprint_loader (shell_before_loading app)
    (groups_of_other_app_entrypoints (this w)) = Ok shell ->
  setup blueprint_loader app w
  = mkOutcome (Ok tt)
      {| app_ctx := app_ctx w;
         this := {| cfg_of_app_prefix := cfg_of_app_prefix (this w);
                    cfg_of_other_app_prefix := cfg_of_other_app_prefix (this w);
                    groups_of_other_app_entrypoints :=
                      groups_of_other_app_entrypoints (this w);
                    url_map :=
                      Some (Werkzeug.Map_new
                              (map copy_rule
                                 (Werkzeug.iter_rules (Flask.url_map shell)))) |} |}
      [].
Proof.
  intros Hload.
  unfold setup, set_self_url_map, get_self, lift, mbind, M_bind, bind. cbn.
  fold (shell_before_loading app). by rewrite Hload.
Qed.

(** C7. When the blueprints load, [setup] returns and leaves in
    [url_map] a table with one rule per rule of the shell, in the same
    order, each made of the pattern and the endpoint of the shell's rule
    and of nothing else: no methods, and the same table whatever the view
    functions of the shell are. Nothing else of the resolver changes, and
    the resolver gains no view functions. *)
Theorem setup_mirrors_pattern_and_endpoint w app shell :
  blueprint_loader (shell_before_loading app)
    (groups_of_other_app_entrypoints (this w)) = Ok shell ->
  let o := setup blueprint_loader app w in
  let routes := Werkzeug.iter_rules (Flask.url_map shell) in
  res o = Ok tt
  /\ exists mirror,
      world o = {| app_ctx := app_ctx w;
                   this := {| cfg_of_app_prefix := cfg_of_app_prefix (this w);
                              cfg_of_other_app_prefix := cfg_of_other_app_prefix (this w);
                              groups_of_other_app_entrypoints :=
                                groups_of_other_app_entrypoints (this w);
                              url_map := Some mirror |} |}
      /\ length (Werkzeug.rules mirror) = length routes
      /\ (forall i r, routes !! i = Some r ->
          Werkzeug.rules mirror !! i
          = Some {| Werkzeug.rule := Werkzeug.rule r;
                    Werkzeug.endpoint := Werkzeug.endpoint r;
                    Werkzeug.methods := None |})
      /\ (forall i r', Werkzeug.rules mirror !! i = Some r' ->
          exists r, routes !! i = Some r
            /\ Werkzeug.rule r' = Werkzeug.rule r
            /\ Werkzeug.endpoint r' = Werkzeug.endpoint r)
      /\ (forall shell',
          map (fun r => (Werkzeug.rule r, Werkzeug.endpoint r))
              (Werkzeug.iter_rules (Flask.url_map shell'))
          = map (fun r => (Werkzeug.rule r, Werkzeug.endpoint r)) routes ->
          Werkzeug.Map_new (map copy_rule (Werkzeug.iter_rules (Flask.url_map shell')))
          = mirror).
Proof.
  intros Hload o routes. subst o routes. rewrite (setup_run _ _ _ Hload). cbn.
  split; [done|]. eexists. split; [reflexivity|]. cbn.
  split; [by rewrite length_map|]. split; [|split].
  - intros i r Hi. by rewrite list_lookup_fmap, Hi.
  - intros i r' Hi. rewrite list_lookup_fmap in Hi.
    destruct (Werkzeug.iter_rules (Flask.url_map shell) !! i) as [r|]; [|done].
    injection Hi as <-. by exists r.
  - intros shell' Heq. f_equal.
    assert (Hcopy : forall rs, map copy_rule rs
              = map (fun pe => Werkzeug.Rule_new pe.1 pe.2)
                  (map (fun r => (Werkzeug.rule r, Werkzeug.endpoint r)) rs))
      by (intros rs; by rewrite map_map).
    by rewrite !Hcopy, Heq.
Qed.

(** C10. The rules [setup] stores have no methods, whatever methods the
    rules of the shell allow, so the build on the mirrored table does not
    depend on the method hint: a path built under one hint is built under
    every other, and so is the URL of the second phase of [build]. *)
Theorem mirrored_build_ignores_method w app shell :
  blueprint_loader (shell_before_loading app)
    (groups_of_other_app_entrypoints (this w)) = Ok shell ->
  let w' := world (setup blueprint_loader app w) in
  exists mirror,
    url_map (this w') = Some mirror
    /\ (forall r, r ∈ Werkzeug.iter_rules (Flask.url_map shell) ->
        {| Werkzeug.rule := Werkzeug.rule r;
           Werkzeug.endpoint := Werkzeug.endpoint r;
           Werkzeug.methods := None |} ∈ Werkzeug.rules mirror)
    /\ Forall Werkzeug.no_methods (Werkzeug.rules mirror)
    /\ (forall endpoint values method method',
        Werkzeug.MapAdapter_build mirror endpoint values method'
        = match Werkzeug.MapAdapter_build mirror endpoint values method with
          | Ok path => Ok path
          | Raise _ => Raise (BuildError endpoint values method')
          end)
    /\ (forall endpoint values method method' url,
        res (build_other Werkzeug.MapAdapter_build endpoint values method w') = Ok url ->
        res (build_other Werkzeug.MapAdapter_build endpoint values method' w') = Ok url).
Proof.
  intros Hload w'. subst w'. rewrite (setup_run _ _ _ Hload). cbn.
  eexists. split; [reflexivity|].
  set (mirror := Werkzeug.Map_new _).
  assert (Hnone : Forall Werkzeug.no_methods (Werkzeug.rules mirror))
    by apply copied_rules_no_methods.
  assert (Hsame : forall endpoint values method method',
    Werkzeug.MapAdapter_build mirror endpoint values method'
    = match Werkzeug.MapAdapter_build mirror endpoint values method with
      | Ok path => Ok path
      | Raise _ => Raise (BuildError endpoint values method')
      end).
  { intros endpoint values method method'. unfold Werkzeug.MapAdapter_build.
    rewrite (partial_build_no_methods mirror endpoint values method' method Hnone).
    by destruct (Werkzeug.MapAdapter_partial_build mirror endpoint values method). }
  split; [|split; [done|split; [done|]]].
  - intros r Hr. subst mirror. cbn. apply list_elem_of_fmap. by exists r.
  - intros endpoint values method method' url.
    set (w' := {| app_ctx := app_ctx w |}).
    destruct (Werkzeug.MapAdapter_build mirror endpoint values method) as [path|e] eqn:Hb.
    + pose proof (Hsame endpoint values method method') as Hb'. rewrite Hb in Hb'.
      by rewrite (build_other_same_path _ w' mirror _ _ method method' path).
    + by rewrite (build_other_raises _ w' mirror _ _ _ e).
Qed.

End SetupClaims.

(** ** The scenarios, run *)

Section Scenarios.

Example factory_builds_mirror : url_map Demo.builder = Some Demo.mirror.
Proof. reflexivity. Qed.

Example scenario_records_detail :
  res (Demo.build "records.detail" [("id", "abc123")] None Demo.w)
  = Ok "https://main.example.org/records/abc123".
Proof. reflexivity. Qed.

Example scenario_search_results :
  res (Demo.build "search.results" [] None Demo.w)
  = Ok "https://archive.example.org/search".
Proof. reflexivity. Qed.

Example scenario_nonexistent_page :
  res (Demo.build "nonexistent.page" [] None Demo.w)
  = Raise (BuildError "nonexistent.page" [] None).
Proof. reflexivity. Qed.

(** An endpoint of the own table whose values do not fit raises
    [BuildError] too, and the mirrored table is tried. *)
Example scenario_missing_value :
  Demo.build "records.detail" [] None Demo.w
  = mkOutcome (Raise (BuildError "records.detail" [] None)) Demo.w
      [UrlMapRead Own; BuildCall Own; UrlMapRead Mirror; BuildCall Mirror].
Proof. reflexivity. Qed.

End Scenarios.

(** ** The theorems at the two-application deployment *)

(** [static] is an endpoint of both tables; the own table wins. *)
Lemma build_own_table_first_witness :
  Werkzeug.has_endpoint Demo.mirror "static" = true
  /\ app_ctx Demo.w = Some Demo.ui_app
  /\ Werkzeug.MapAdapter_build (Flask.url_map Demo.ui_app) "static"
       [("filename", "a.css")] None = Ok "/static/a.css"
  /\ Flask.config Demo.ui_app !! cfg_of_app_prefix (this Demo.w)
     = Some (Str "https://main.example.org")
  /\ res (Demo.build "static" [("filename", "a.css")] None Demo.w)
     = Ok "https://main.example.org/static/a.css"
  /\ (UrlMapRead Mirror ∉ trace (Demo.build "static" [("filename", "a.css")] None Demo.w)).
Proof.
  assert (Hctx : app_ctx Demo.w = Some Demo.ui_app) by reflexivity.
  assert (Hb : Werkzeug.MapAdapter_build (Flask.url_map Demo.ui_app) "static"
                 [("filename", "a.css")] None = Ok "/static/a.css")
    by (vm_compute; reflexivity).
  assert (Hp : Flask.config Demo.ui_app !! cfg_of_app_prefix (this Demo.w)
               = Some (Str "https://main.example.org"))
    by (vm_compute; reflexivity).
  destruct (build_own_table_first Werkzeug.MapAdapter_build Demo.w Demo.ui_app
              "static" [("filename", "a.css")] None "/static/a.css"
              "https://main.example.org" Hctx Hb Hp) as (Hres & _ & Hno & _).
  exact (conj eq_refl (conj Hctx (conj Hb (conj Hp (conj Hres Hno))))).
Defined.


Lemma build_other_table_prefix_witness :
  app_ctx Demo.w = Some Demo.ui_app
  /\ Werkzeug.has_endpoint (Flask.url_map Demo.ui_app) "search.results" = false
  /\ url_map (this Demo.w) = Some Demo.mirror
  /\ Werkzeug.MapAdapter_build Demo.mirror "search.results" [] None = Ok "/search"
  /\ Flask.config Demo.ui_app !! cfg_of_other_app_prefix (this Demo.w)
     = Some (Str "https://archive.example.org")
  /\ res (build Werkzeug.MapAdapter_build "search.results" [] None Demo.w)
     = Ok "https://archive.example.org/search".
Proof.
  assert (Hctx : app_ctx Demo.w = Some Demo.ui_app) by reflexivity.
  assert (Habs : Werkzeug.has_endpoint (Flask.url_map Demo.ui_app) "search.results" = false)
    by (vm_compute; reflexivity).
  assert (Hm : url_map (this Demo.w) = Some Demo.mirror) by reflexivity.
  assert (Hb : Werkzeug.MapAdapter_build Demo.mirror "search.results" [] None = Ok "/search")
    by (vm_compute; reflexivity).
  assert (Hp : Flask.config Demo.ui_app !! cfg_of_other_app_prefix (this Demo.w)
               = Some (Str "https://archive.example.org"))
    by (vm_compute; reflexivity).
  refine (conj Hctx (conj Habs (conj Hm (conj Hb (conj Hp _))))).
  exact (build_other_table_prefix Demo.w Demo.ui_app Demo.mirror "search.results" []
           None "/search" "https://archive.example.org" Hctx Habs Hm Hb Hp).
Defined.

Lemma build_unknown_endpoint_witness :
  app_ctx Demo.w = Some Demo.ui_app
  /\ url_map (this Demo.w) = Some Demo.mirror
  /\ Werkzeug.has_endpoint (Flask.url_map Demo.ui_app) "nonexistent.page" = false
  /\ Werkzeug.has_endpoint Demo.mirror "nonexistent.page" = false
  /\ res (build Werkzeug.MapAdapter_build "nonexistent.page" [] None Demo.w)
     = Raise (BuildError "nonexistent.page" [] None).
Proof.
  assert (Hctx : app_ctx Demo.w = Some Demo.ui_app) by reflexivity.
  assert (Hm : url_map (this Demo.w) = Some Demo.mirror) by reflexivity.
  assert (Hown : Werkzeug.has_endpoint (Flask.url_map Demo.ui_app) "nonexistent.page" = false)
    by (vm_compute; reflexivity).
  assert (Hmir : Werkzeug.has_endpoint Demo.mirror "nonexistent.page" = false)
    by (vm_compute; reflexivity).
  refine (conj Hctx (conj Hm (conj Hown (conj Hmir _)))).
  exact (proj1 (build_unknown_endpoint Demo.w Demo.ui_app Demo.mirror "nonexistent.page"
                  [] None Hctx Hm Hown Hmir)).
Defined.

Lemma build_returns_prefix_then_path_witness :
  res (build Werkzeug.MapAdapter_build "records.detail" [("id", "abc123")] None Demo.w)
  = Ok "https://main.example.org/records/abc123"
  /\ exists app key table p path,
      app_ctx Demo.w = Some app
      /\ ((table = Flask.url_map app /\ key = cfg_of_app_prefix (this Demo.w))
          \/ (raises_BuildError
                (Werkzeug.MapAdapter_build (Flask.url_map app) "records.detail"
                   [("id", "abc123")] None) = true
              /\ url_map (this Demo.w) = Some table
              /\ key = cfg_of_other_app_prefix (this Demo.w)))
      /\ Werkzeug.MapAdapter_build table "records.detail" [("id", "abc123")] None = Ok path
      /\ Flask.config app !! key = Some (Str p)
      /\ "https://main.example.org/records/abc123" = p +:+ path.
Proof.
  assert (Hres : res (build Werkzeug.MapAdapter_build "records.detail" [("id", "abc123")]
                        None Demo.w)
                 = Ok "https://main.example.org/records/abc123")
    by (vm_compute; reflexivity).
  split; [exact Hres|].
  exact (build_returns_prefix_then_path Werkzeug.MapAdapter_build Demo.w "records.detail"
           [("id", "abc123")] None "https://main.example.org/records/abc123" Hres).
Defined.

(** The prefix changed between two calls is the prefix of the second. *)
Lemma prefix_read_on_every_call_witness :
  app_ctx Demo.w = Some Demo.ui_app
  /\ res (build_reconfigure_build Werkzeug.MapAdapter_build "records.detail"
            [("id", "abc123")] None "SITE_UI_URL" (Str "https://new.example.org") Demo.w)
     = Ok ("https://main.example.org/records/abc123",
           "https://new.example.org/records/abc123").
Proof.
  assert (Hctx : app_ctx Demo.w = Some Demo.ui_app) by reflexivity.
  split; [exact Hctx|].
  destruct (prefix_read_on_every_call Werkzeug.MapAdapter_build Demo.w Demo.ui_app
              "records.detail" [("id", "abc123")] None Hctx) as (_ & _ & Hown & _).
  apply (Hown "/records/abc123" "https://main.example.org" "https://new.example.org");
    vm_compute; reflexivity.
Defined.

(** The route of the other application answers GET only and has a view
    function; its copy has the pattern and the endpoint. *)
Lemma setup_mirrors_pattern_and_endpoint_witness :
  Demo.loader (shell_before_loading Demo.ui_app)
    (groups_of_other_app_entrypoints (this Demo.w_no_setup)) = Ok Demo.shell
  /\ res (setup Demo.loader Demo.ui_app Demo.w_no_setup) = Ok tt
  /\ exists mirror,
      url_map (this (world (setup Demo.loader Demo.ui_app Demo.w_no_setup))) = Some mirror
      /\ length (Werkzeug.rules mirror) = 2
      /\ Werkzeug.rules mirror !! 1
         = Some {| Werkzeug.rule := "/search";
                   Werkzeug.endpoint := "search.results";
                   Werkzeug.methods := None |}.
Proof.
  assert (Hload : Demo.loader (shell_before_loading Demo.ui_app)
                    (groups_of_other_app_entrypoints (this Demo.w_no_setup))
                  = Ok Demo.shell) by reflexivity.
  split; [exact Hload|].
  destruct (setup_mirrors_pattern_and_endpoint Demo.loader Demo.w_no_setup Demo.ui_app
              Demo.shell Hload) as (Hres & mirror & Hw & Hlen & Hcopy & _).
  split; [exact Hres|]. exists mirror.
  split; [by rewrite Hw|]. split; [exact Hlen|].
  exact (Hcopy 1 (Werkzeug.mkRule "/search" "search.results"
                    (Some ["GET"; "HEAD"; "OPTIONS"])) eq_refl).
Defined.

Lemma build_before_setup_witness :
  raises_BuildError
    (Werkzeug.MapAdapter_build (Flask.url_map Demo.ui_app) "search.results" [] None) = true
  /\ res (build Werkzeug.MapAdapter_build "search.results" [] None Demo.w_no_setup)
     = Raise (AttributeError "url_map").
Proof.
  assert (Hb : raises_BuildError
                 (Werkzeug.MapAdapter_build (Flask.url_map Demo.ui_app) "search.results"
                    [] None) = true) by (vm_compute; reflexivity).
  split; [exact Hb|].
  exact (proj1 (build_before_setup Werkzeug.MapAdapter_build "SITE_UI_URL" "SITE_API_URL"
                  Demo.groups Demo.ui_app "search.results" [] None Hb)).
Defined.

(** The other application answers [search.results] to GET only; the
    mirrored table builds it for DELETE as well. *)
Lemma mirrored_build_ignores_method_witness :
  Demo.loader (shell_before_loading Demo.ui_app)
    (groups_of_other_app_entrypoints (this Demo.w_no_setup)) = Ok Demo.shell
  /\ Werkzeug.MapAdapter_build (Flask.url_map Demo.shell) "search.results" []
       (Some "DELETE")
     = Raise (BuildError "search.results" [] (Some "DELETE"))
  /\ forall method,
      Werkzeug.MapAdapter_build Demo.mirror "search.results" [] method = Ok "/search".
Proof.
  assert (Hload : Demo.loader (shell_before_loading Demo.ui_app)
                    (groups_of_other_app_entrypoints (this Demo.w_no_setup))
                  = Ok Demo.shell) by reflexivity.
  split; [exact Hload|]. split; [vm_compute; reflexivity|].
  destruct (mirrored_build_ignores_method Demo.loader Demo.w_no_setup Demo.ui_app
              Demo.shell Hload) as (mirror & Hm & _ & _ & Hsame & _).
  assert (Heq : mirror = Demo.mirror).
  { rewrite (setup_run Demo.loader Demo.w_no_setup Demo.ui_app Demo.shell Hload) in Hm.
    injection Hm as <-. reflexivity. }
  subst mirror. intros method.
  rewrite (Hsame "search.results" [] None method). reflexivity.
Defined.

(** * Further properties of the module *)

(** ** [build]: misuse and misconfiguration *)

Section BuildEdges.

Variable adapter_build :
  Werkzeug.Map -> string -> Values -> option string -> result string.

Implicit Types (w : World) (app : Flask.t) (endpoint : string)
  (values : Values) (method : option string).

(** X1. Outside an application context [build] raises the [RuntimeError]
    of the [current_app] proxy before it reads any table or any
    configuration key, whether or not [setup] has run. *)
Theorem build_outside_application_context w endpoint values method :
  app_ctx w = None ->
  build adapter_build endpoint values method w
  = mkOutcome (Raise (RuntimeError "Working outside of application context.")) w [].
Proof.
  intros Hctx.
  rewrite build_no_fallback by (by rewrite build_own_outside_context).
  by apply build_own_outside_context.
Qed.

(** X2. A prefix stored in the configuration that is not a string makes
    [build] raise [TypeError]: in the first phase without trying the
    mirrored table, in the second phase after it. *)
Theorem build_prefix_not_a_string w app endpoint values method path v :
  app_ctx w = Some app ->
  (forall s, v <> Str s) ->
  let o := build adapter_build endpoint values method w in
  (adapter_build (Flask.url_map app) endpoint values method = Ok path ->
   Flask.config app !! cfg_of_app_prefix (this w) = Some v ->
   res o = Raise TypeError /\ (UrlMapRead Mirror ∉ trace o))
  /\ (forall mirror,
      raises_BuildError (adapter_build (Flask.url_map app) endpoint values method) = true ->
      url_map (this w) = Some mirror ->
      adapter_build mirror endpoint values method = Ok path ->
      Flask.config app !! cfg_of_other_app_prefix (this w) = Some v ->
      res o = Raise TypeError).
Proof.
  intros Hctx Hv o. subst o. split.
  - intros Hb Hp.
    pose proof (build_own_returns adapter_build w app endpoint values method path Hctx Hb)
      as Hown.
    assert (Hty : prefixed app (cfg_of_app_prefix (this w)) path = Raise TypeError).
    { unfold prefixed. rewrite Hp. destruct v; try done. by destruct (Hv s). }
    rewrite Hty in Hown.
    rewrite build_no_fallback by (by rewrite Hown).
    split; [by rewrite Hown|]. apply build_own_trace_no_mirror.
  - intros mirror Hown Hm Hb Hp.
    erewrite build_of_other_path by done. cbn.
    unfold prefixed. rewrite Hp. destruct v; try done. by destruct (Hv s).
Qed.

(** The outcome of [build] when the own table raises [BuildError] and
    the build on the mirrored table raises. *)
Lemma build_of_other_raise w app mirror endpoint values method e :
  app_ctx w = Some app ->
  raises_BuildError (adapter_build (Flask.url_map app) endpoint values method) = true ->
  url_map (this w) = Some mirror ->
  adapter_build mirror endpoint values method = Raise e ->
  build adapter_build endpoint values method w
  = mkOutcome (Raise e) w
      [UrlMapRead Own; BuildCall Own; UrlMapRead Mirror; BuildCall Mirror].
Proof.
  intros Hctx Hown Hm Hb.
  destruct (adapter_build (Flask.url_map app) endpoint values method) as [|e0] eqn:He;
    [done|].
  pose proof (build_own_raises adapter_build w app endpoint values method e0 Hctx He)
    as Ho.
  rewrite build_fallback by (by rewrite Ho).
  rewrite Ho. by erewrite build_other_raises by done.
Qed.

(** X3. The second phase has no handler: when the own table raises
    [BuildError] and the build on the mirrored table raises, that
    exception, [BuildError] or not, is the outcome of [build], and no
    prefix is read. *)
Theorem build_second_phase_error_propagates w app mirror endpoint values method e :
  app_ctx w = Some app ->
  raises_BuildError (adapter_build (Flask.url_map app) endpoint values method) = true ->
  url_map (this w) = Some mirror ->
  adapter_build mirror endpoint values method = Raise e ->
  build adapter_build endpoint values method w
  = mkOutcome (Raise e) w
      [UrlMapRead Own; BuildCall Own; UrlMapRead Mirror; BuildCall Mirror].
Proof.
  intros Hctx Hown Hm Hb.
  destruct (adapter_build (Flask.url_map app) endpoint values method) as [|e0] eqn:He;
    [done|].
  rewrite build_fallback
    by (by erewrite build_own_raises by done).
  erewrite build_own_raises by done.
  by erewrite build_other_raises by done.
Qed.

(** X4. A call reads one prefix key at most, the other-application key
    when the own table raised [BuildError] and the own-application key
    otherwise; assigning any other configuration key, the other prefix
    included, does not change what the call returns or raises. *)
Theorem build_ignores_unread_keys w app endpoint values method key v :
  app_ctx w = Some app ->
  key <> (if raises_BuildError (adapter_build (Flask.url_map app) endpoint values method)
          then cfg_of_other_app_prefix (this w)
          else cfg_of_app_prefix (this w)) ->
  res (build adapter_build endpoint values method (reconfigured key v w))
  = res (build adapter_build endpoint values method w).
Proof.
  intros Hctx Hkey.
  set (w' := reconfigured key v w).
  assert (Hctx' : app_ctx w' = Some (Flask.set_config key v app))
    by (unfold w', reconfigured; by rewrite Hctx).
  assert (Hlook : forall k, key <> k ->
            forall path, prefixed (Flask.set_config key v app) k path = prefixed app k path).
  { intros k Hk path. unfold prefixed, Flask.set_config. cbn.
    by rewrite lookup_insert_ne. }
  destruct (adapter_build (Flask.url_map app) endpoint values method) as [path|e] eqn:Hb.
  - cbn in Hkey.
    rewrite (build_of_own_path adapter_build w' (Flask.set_config key v app) _ _ _ path)
      by done.
    rewrite (build_of_own_path adapter_build w app _ _ _ path) by done.
    cbn. by apply Hlook.
  - pose proof (build_own_raises adapter_build w app endpoint values method e Hctx Hb)
      as Ho.
    pose proof (build_own_raises adapter_build w' (Flask.set_config key v app)
                  endpoint values method e Hctx' Hb) as Ho'.
    cbn in Hkey. destruct (is_BuildError e) eqn:He.
    + rewrite !build_fallback by (by rewrite ?Ho, ?Ho'). cbn.
      destruct (url_map (this w)) as [mirror|] eqn:Hm.
      2: { by rewrite !build_other_unset. }
      destruct (adapter_build mirror endpoint values method) as [path|e'] eqn:Hb'.
      * rewrite (build_other_returns adapter_build w' (Flask.set_config key v app)
                   mirror _ _ _ path) by done.
        rewrite (build_other_returns adapter_build w app mirror _ _ _ path) by done.
        cbn. by apply Hlook.
      * rewrite (build_other_raises adapter_build w' mirror _ _ _ e') by done.
        by rewrite (build_other_raises adapter_build w mirror _ _ _ e').
    + rewrite !build_no_fallback by (by rewrite ?Ho, ?Ho').
      by rewrite Ho, Ho'.
Qed.

End BuildEdges.

(** ** [setup] and the factory *)

Section SetupEdges.

Variable blueprint_loader : Flask.t -> list string -> result Flask.t.

Implicit Types (w : World) (app shell : Flask.t) (self : InvenioAppsUrlsBuilder).

(** What [setup] does when loading raises. *)
Lemma setup_fails w app e :
  blueprint_loader (shell_before_loading app)
    (groups_of_other_app_entrypoints (this w)) = Raise e ->
  setup blueprint_loader app w = mkOutcome (Raise e) w [].
Proof.
  intros Hload.
  unfold setup, set_self_url_map, get_self, lift, mbind, M_bind, bind. cbn.
  fold (shell_before_loading app). by rewrite Hload.
Qed.

(** X5. When loading the blueprints raises, [setup] raises the same
    exception and assigns nothing: the resolver keeps the [url_map] it
    had, or still has none; and the factory raises it too instead of
    returning a resolver. *)
Theorem setup_failure_assigns_nothing w app cfg_app cfg_other e :
  blueprint_loader (shell_before_loading app)
    (groups_of_other_app_entrypoints (this w)) = Raise e ->
  setup blueprint_loader app w = mkOutcome (Raise e) w []
  /\ create_invenio_apps_urls_builder_factory blueprint_loader cfg_app cfg_other
       (groups_of_other_app_entrypoints (this w)) app = Raise e.
Proof.
  intros Hload. split; [by apply setup_fails|].
  unfold create_invenio_apps_urls_builder_factory.
  by rewrite (setup_fails {| app_ctx := None |} app e).
Qed.

(** The shell depends on the application through one key. *)
Lemma shell_before_loading_same app app' :
  Flask.config app !! "BLUEPRINTS_URL_PREFIXES"
  = Flask.config app' !! "BLUEPRINTS_URL_PREFIXES" ->
  shell_before_loading app = shell_before_loading app'.
Proof. intros Heq. unfold shell_before_loading. by rewrite Heq. Qed.

(** X6. [setup] needs no application context and reads nothing of the
    application it is given but [BLUEPRINTS_URL_PREFIXES]: with the same
    resolver, any application context or none, and any application with
    the same value (or the same absence) of that key, it returns or raises
    the same, leaves the same resolver, does not touch the context, and
    reads neither table nor prefix. *)
Theorem setup_reads_only_blueprint_prefixes w w' app app' :
  this w' = this w ->
  Flask.config app' !! "BLUEPRINTS_URL_PREFIXES"
  = Flask.config app !! "BLUEPRINTS_URL_PREFIXES" ->
  let o := setup blueprint_loader app w in
  let o' := setup blueprint_loader app' w' in
  res o' = res o
  /\ this (world o') = this (world o)
  /\ app_ctx (world o') = app_ctx w'
  /\ trace o' = [].
Proof.
  intros Hthis Hcfg o o'. subst o o'.
  pose proof (shell_before_loading_same app' app Hcfg) as Hshell.
  destruct (blueprint_loader (shell_before_loading app)
              (groups_of_other_app_entrypoints (this w))) as [shell|e] eqn:Hload.
  - rewrite (setup_run blueprint_loader w app shell Hload).
    rewrite (setup_run blueprint_loader w' app' shell) by (by rewrite Hshell, Hthis).
    cbn. by rewrite Hthis.
  - rewrite (setup_fails w app e Hload).
    rewrite (setup_fails w' app' e) by (by rewrite Hshell, Hthis).
    cbn. by rewrite Hthis.
Qed.

(** X7. [setup] replaces the mirrored table, it does not add to it:
    running it a second time returns or raises what the first run did and
    leaves the world of the first run. *)
Theorem setup_twice w app :
  let o := setup blueprint_loader app w in
  setup blueprint_loader app (world o) = mkOutcome (res o) (world o) [].
Proof.
  intros o. subst o.
  destruct (blueprint_loader (shell_before_loading app)
              (groups_of_other_app_entrypoints (this w))) as [shell|e] eqn:Hload.
  - rewrite (setup_run blueprint_loader w app shell Hload). cbn.
    by rewrite (setup_run blueprint_loader _ app shell) by done.
  - rewrite (setup_fails w app e Hload). cbn. by apply setup_fails.
Qed.

(** What a returned resolver is made of. *)
Lemma factory_returned cfg_app cfg_other groups app self :
  create_invenio_apps_urls_builder_factory blueprint_loader cfg_app cfg_other groups app
  = Ok self ->
  exists shell,
    blueprint_loader (shell_before_loading app) groups = Ok shell
    /\ self = {| cfg_of_app_prefix := cfg_app;
                 cfg_of_other_app_prefix := cfg_other;
                 groups_of_other_app_entrypoints := groups;
                 url_map :=
                   Some (Werkzeug.Map_new
                           (map copy_rule
                              (Werkzeug.iter_rules (Flask.url_map shell)))) |}.
Proof.
  unfold create_invenio_apps_urls_builder_factory.
  set (w0 := {| app_ctx := None; this := __init__ cfg_app cfg_other groups |}).
  destruct (blueprint_loader (shell_before_loading app) groups) as [shell|e] eqn:Hload.
  - rewrite (setup_run blueprint_loader w0 app shell Hload). cbn.
    intros [= <-]. by exists shell.
  - by rewrite (setup_fails w0 app e Hload).
Qed.

End SetupEdges.

(** ** From the factory to [invenio_url_for] *)

Section EndToEnd.

Variable adapter_build :
  Werkzeug.Map -> string -> Values -> option string -> result string.
Variable blueprint_loader : Flask.t -> list string -> result Flask.t.

Implicit Types (w : World) (app current : Flask.t) (self : InvenioAppsUrlsBuilder)
  (endpoint : string) (values : Values) (method : option string).

(** X9. A resolver that the factory returned has its mirrored table: when
    the own table of the application it later serves raises [BuildError],
    [build] goes on to build on that table and ends with what that build
    raises, or with its path behind the other-application prefix; it does
    not stop at the [url_map] attribute. *)
Theorem factory_resolver_reaches_mirror
    cfg_app cfg_other groups app self w current endpoint values method :
  create_invenio_apps_urls_builder_factory blueprint_loader cfg_app cfg_other groups app
  = Ok self ->
  this w = self ->
  app_ctx w = Some current ->
  raises_BuildError (adapter_build (Flask.url_map current) endpoint values method) = true ->
  exists mirror,
    url_map self = Some mirror
    /\ cfg_of_other_app_prefix self = cfg_other
    /\ let o := build adapter_build endpoint values method w in
       res o = match adapter_build mirror endpoint values method with
               | Ok path => prefixed current cfg_other path
               | Raise e => Raise e
               end
       /\ (BuildCall Mirror ∈ trace o).
Proof.
  intros Hmade Hthis Hctx Hown.
  apply factory_returned in Hmade as (shell & _ & Hself).
  set (mirror := Werkzeug.Map_new
                   (map copy_rule (Werkzeug.iter_rules (Flask.url_map shell)))) in *.
  exists mirror. split; [by rewrite Hself|]. split; [by rewrite Hself|].
  assert (Hm : url_map (this w) = Some mirror) by (by rewrite Hthis, Hself).
  assert (Hk : cfg_of_other_app_prefix (this w) = cfg_other) by (by rewrite Hthis, Hself).
  cbn.
  destruct (adapter_build mirror endpoint values method) as [path|e] eqn:Hb.
  - erewrite build_of_other_path by done. cbn. rewrite Hk. split; [done|].
    apply list_elem_of_further, list_elem_of_further, list_elem_of_further,
      list_elem_of_here.
  - erewrite build_of_other_raise by done. cbn. split; [done|].
    apply list_elem_of_further, list_elem_of_further, list_elem_of_further,
      list_elem_of_here.
Qed.

#[local] Existing Instance InvenioAppsUrlsBuilder_impl.

(** X10. [invenio_url_for] raises [RuntimeError] outside an application
    context and [AttributeError] when the application has no
    [invenio_urls]. With an [InvenioAppsUrlsBuilder] attached, every URL
    it returns is external in the resolver's sense: the string stored
    under one of the resolver's two prefix keys in the configuration of
    the current application, followed by the path that the own table
    (own prefix) or the mirrored table (other prefix) builds for the
    endpoint, the values and the [_method] of the call. *)
Theorem invenio_url_for_external
    (ctx : option (AppContext InvenioAppsUrlsBuilder)) endpoint _method values :
  let called := invenio_url_for (H := InvenioAppsUrlsBuilder_impl adapter_build)
                  ctx endpoint _method values in
  (ctx = None ->
   called = Raise (RuntimeError "Working outside of application context."))
  /\ (forall c, ctx = Some c -> invenio_urls c = None ->
      called = Raise (AttributeError "invenio_urls"))
  /\ (forall url, called = Ok url ->
      exists c self key table p path,
        ctx = Some c /\ invenio_urls c = Some self
        /\ ((key = cfg_of_app_prefix self /\ table = Flask.url_map (ctx_app c))
            \/ (key = cfg_of_other_app_prefix self /\ url_map self = Some table))
        /\ Flask.config (ctx_app c) !! key = Some (Str p)
        /\ adapter_build table endpoint values _method = Ok path
        /\ url = p +:+ path).
Proof.
  intros called. subst called. unfold invenio_url_for.
  split; [by intros ->|]. split; [by intros c -> ->|].
  intros url Hcall.
  destruct ctx as [[current [self|]]|]; cbn in Hcall; try discriminate.
  unfold InvenioUrlsBuilder.build, InvenioAppsUrlsBuilder_impl in Hcall.
  set (w := {| app_ctx := Some current; this := self |}) in Hcall.
  exists {| ctx_app := current; invenio_urls := Some self |}, self.
  destruct (adapter_build (Flask.url_map current) endpoint values _method)
    as [path|e] eqn:Hb.
  - rewrite (build_of_own_path adapter_build w current _ _ _ path) in Hcall by done.
    cbn in Hcall. unfold prefixed in Hcall.
    destruct (Flask.config current !! cfg_of_app_prefix self) as [[p| | |]|] eqn:Hp;
      try discriminate.
    injection Hcall as <-.
    exists (cfg_of_app_prefix self), (Flask.url_map current), p, path.
    repeat split; auto.
  - pose proof (build_own_raises adapter_build w current endpoint values _method e
                  eq_refl Hb) as Ho.
    destruct (is_BuildError e) eqn:He.
    2: { rewrite build_no_fallback in Hcall by (by rewrite Ho). by rewrite Ho in Hcall. }
    rewrite build_fallback in Hcall by (by rewrite Ho). cbn in Hcall.
    destruct (url_map self) as [mirror|] eqn:Hm.
    2: { by rewrite build_other_unset in Hcall. }
    destruct (adapter_build mirror endpoint values _method) as [path|e'] eqn:Hb'.
    2: { by erewrite build_other_raises in Hcall. }
    rewrite (build_other_returns adapter_build w current mirror _ _ _ path) in Hcall
      by done.
    cbn in Hcall. unfold prefixed in Hcall.
    destruct (Flask.config current !! cfg_of_other_app_prefix self) as [[p| | |]|] eqn:Hp;
      try discriminate.
    injection Hcall as <-.
    exists (cfg_of_other_app_prefix self), mirror, p, path.
    repeat split; auto.
Qed.

End EndToEnd.

(** ** The further properties at the two-application deployment *)

Lemma build_outside_application_context_witness :
  app_ctx DemoEdge.w_outside = None
  /\ build Werkzeug.MapAdapter_build "records.detail" [("id", "abc123")] None
       DemoEdge.w_outside
     = mkOutcome (Raise (RuntimeError "Working outside of application context."))
         DemoEdge.w_outside [].
Proof.
  assert (Hctx : app_ctx DemoEdge.w_outside = None) by reflexivity.
  exact (conj Hctx
           (build_outside_application_context Werkzeug.MapAdapter_build
              DemoEdge.w_outside "records.detail" [("id", "abc123")] None Hctx)).
Defined.

(** [None] stored as own prefix: [TypeError], and no fallback although the
    other prefix is fine. *)
Lemma build_prefix_not_a_string_witness :
  app_ctx DemoEdge.w_none_prefix = Some DemoEdge.ui_app_none_prefix
  /\ (forall s, NoneVal <> Str s)
  /\ Werkzeug.MapAdapter_build (Flask.url_map DemoEdge.ui_app_none_prefix)
       "records.detail" [("id", "abc123")] None = Ok "/records/abc123"
  /\ Flask.config DemoEdge.ui_app_none_prefix
       !! cfg_of_app_prefix (this DemoEdge.w_none_prefix) = Some NoneVal
  /\ res (build Werkzeug.MapAdapter_build "records.detail" [("id", "abc123")] None
            DemoEdge.w_none_prefix) = Raise TypeError.
Proof.
  assert (Hctx : app_ctx DemoEdge.w_none_prefix = Some DemoEdge.ui_app_none_prefix)
    by reflexivity.
  assert (Hv : forall s, NoneVal <> Str s) by (intros s; discriminate).
  assert (Hb : Werkzeug.MapAdapter_build (Flask.url_map DemoEdge.ui_app_none_prefix)
                 "records.detail" [("id", "abc123")] None = Ok "/records/abc123")
    by (vm_compute; reflexivity).
  assert (Hp : Flask.config DemoEdge.ui_app_none_prefix
                 !! cfg_of_app_prefix (this DemoEdge.w_none_prefix) = Some NoneVal)
    by (vm_compute; reflexivity).
  refine (conj Hctx (conj Hv (conj Hb (conj Hp _)))).
  exact (proj1 (proj1 (build_prefix_not_a_string Werkzeug.MapAdapter_build
                         DemoEdge.w_none_prefix DemoEdge.ui_app_none_prefix
                         "records.detail" [("id", "abc123")] None "/records/abc123"
                         NoneVal Hctx Hv) Hb Hp)).
Defined.

(** [records.detail] without its [id]: both tables raise [BuildError], the
    one of the mirrored table comes out. *)
Lemma build_second_phase_error_propagates_witness :
  app_ctx Demo.w = Some Demo.ui_app
  /\ raises_BuildError
       (Werkzeug.MapAdapter_build (Flask.url_map Demo.ui_app) "records.detail" [] None)
     = true
  /\ url_map (this Demo.w) = Some Demo.mirror
  /\ Werkzeug.MapAdapter_build Demo.mirror "records.detail" [] None
     = Raise (BuildError "records.detail" [] None)
  /\ build Werkzeug.MapAdapter_build "records.detail" [] None Demo.w
     = mkOutcome (Raise (BuildError "records.detail" [] None)) Demo.w
         [UrlMapRead Own; BuildCall Own; UrlMapRead Mirror; BuildCall Mirror].
Proof.
  assert (Hctx : app_ctx Demo.w = Some Demo.ui_app) by reflexivity.
  assert (Hown : raises_BuildError
                   (Werkzeug.MapAdapter_build (Flask.url_map Demo.ui_app)
                      "records.detail" [] None) = true) by (vm_compute; reflexivity).
  assert (Hm : url_map (this Demo.w) = Some Demo.mirror) by reflexivity.
  assert (Hb : Werkzeug.MapAdapter_build Demo.mirror "records.detail" [] None
               = Raise (BuildError "records.detail" [] None))
    by (vm_compute; reflexivity).
  refine (conj Hctx (conj Hown (conj Hm (conj Hb _)))).
  exact (build_second_phase_error_propagates Werkzeug.MapAdapter_build Demo.w
           Demo.ui_app Demo.mirror "records.detail" [] None _ Hctx Hown Hm Hb).
Defined.

(** Breaking the other prefix does not change a URL of the own table. *)
Lemma build_ignores_unread_keys_witness :
  app_ctx Demo.w = Some Demo.ui_app
  /\ "SITE_API_URL"
     <> (if raises_BuildError
              (Werkzeug.MapAdapter_build (Flask.url_map Demo.ui_app) "records.detail"
                 [("id", "abc123")] None)
         then cfg_of_other_app_prefix (this Demo.w)
         else cfg_of_app_prefix (this Demo.w))
  /\ res (build Werkzeug.MapAdapter_build "records.detail" [("id", "abc123")] None
            (reconfigured "SITE_API_URL" NoneVal Demo.w))
     = Ok "https://main.example.org/records/abc123".
Proof.
  assert (Hctx : app_ctx Demo.w = Some Demo.ui_app) by reflexivity.
  assert (Hkey : "SITE_API_URL"
                 <> (if raises_BuildError
                          (Werkzeug.MapAdapter_build (Flask.url_map Demo.ui_app)
                             "records.detail" [("id", "abc123")] None)
                     then cfg_of_other_app_prefix (this Demo.w)
                     else cfg_of_app_prefix (this Demo.w)))
    by (vm_compute; discriminate).
  refine (conj Hctx (conj Hkey _)).
  rewrite (build_ignores_unread_keys Werkzeug.MapAdapter_build Demo.w Demo.ui_app
             "records.detail" [("id", "abc123")] None "SITE_API_URL" NoneVal Hctx Hkey).
  vm_compute. reflexivity.
Defined.

(** An entry-point group that names nothing: the factory raises. *)
Lemma setup_failure_assigns_nothing_witness :
  Demo.loader (shell_before_loading Demo.ui_app)
    (groups_of_other_app_entrypoints (this (at_startup DemoEdge.builder_bad_group)))
  = Raise (OtherError "ModuleNotFoundError")
  /\ setup Demo.loader Demo.ui_app (at_startup DemoEdge.builder_bad_group)
     = mkOutcome (Raise (OtherError "ModuleNotFoundError"))
         (at_startup DemoEdge.builder_bad_group) []
  /\ create_invenio_apps_urls_builder_factory Demo.loader "SITE_UI_URL" "SITE_API_URL"
       ["no.such.group"] Demo.ui_app
     = Raise (OtherError "ModuleNotFoundError").
Proof.
  assert (Hload : Demo.loader (shell_before_loading Demo.ui_app)
                    (groups_of_other_app_entrypoints
                       (this (at_startup DemoEdge.builder_bad_group)))
                  = Raise (OtherError "ModuleNotFoundError"))
    by (vm_compute; reflexivity).
  exact (conj Hload
           (setup_failure_assigns_nothing Demo.loader
              (at_startup DemoEdge.builder_bad_group) Demo.ui_app
              "SITE_UI_URL" "SITE_API_URL" _ Hload)).
Defined.

(** Set up at start-up for an unrelated application, the resolver is the
    one set up inside a context of [Demo.ui_app]. *)
Lemma setup_reads_only_blueprint_prefixes_witness :
  this (at_startup Demo.fresh_builder) = this Demo.w_no_setup
  /\ Flask.config DemoEdge.other_app !! "BLUEPRINTS_URL_PREFIXES"
     = Flask.config Demo.ui_app !! "BLUEPRINTS_URL_PREFIXES"
  /\ this (world (setup Demo.loader DemoEdge.other_app (at_startup Demo.fresh_builder)))
     = this (world (setup Demo.loader Demo.ui_app Demo.w_no_setup)).
Proof.
  assert (Hthis : this (at_startup Demo.fresh_builder) = this Demo.w_no_setup)
    by reflexivity.
  assert (Hcfg : Flask.config DemoEdge.other_app !! "BLUEPRINTS_URL_PREFIXES"
                 = Flask.config Demo.ui_app !! "BLUEPRINTS_URL_PREFIXES")
    by (vm_compute; reflexivity).
  refine (conj Hthis (conj Hcfg _)).
  exact (proj1 (proj2 (setup_reads_only_blueprint_prefixes Demo.loader Demo.w_no_setup
                         (at_startup Demo.fresh_builder) Demo.ui_app DemoEdge.other_app
                         Hthis Hcfg))).
Defined.

Lemma factory_resolver_reaches_mirror_witness :
  create_invenio_apps_urls_builder_factory Demo.loader "SITE_UI_URL" "SITE_API_URL"
    Demo.groups Demo.ui_app = Ok Demo.builder
  /\ app_ctx Demo.w = Some Demo.ui_app
  /\ raises_BuildError
       (Werkzeug.MapAdapter_build (Flask.url_map Demo.ui_app) "search.results" [] None)
     = true
  /\ exists mirror,
      url_map Demo.builder = Some mirror
      /\ res (build Werkzeug.MapAdapter_build "search.results" [] None Demo.w)
         = match Werkzeug.MapAdapter_build mirror "search.results" [] None with
           | Ok path => prefixed Demo.ui_app "SITE_API_URL" path
           | Raise e => Raise e
           end.
Proof.
  assert (Hmade : create_invenio_apps_urls_builder_factory Demo.loader "SITE_UI_URL"
                    "SITE_API_URL" Demo.groups Demo.ui_app = Ok Demo.builder)
    by reflexivity.
  assert (Hctx : app_ctx Demo.w = Some Demo.ui_app) by reflexivity.
  assert (Hown : raises_BuildError
                   (Werkzeug.MapAdapter_build (Flask.url_map Demo.ui_app)
                      "search.results" [] None) = true) by (vm_compute; reflexivity).
  refine (conj Hmade (conj Hctx (conj Hown _))).
  destruct (factory_resolver_reaches_mirror Werkzeug.MapAdapter_build Demo.loader
              "SITE_UI_URL" "SITE_API_URL" Demo.groups Demo.ui_app Demo.builder Demo.w
              Demo.ui_app "search.results" [] None Hmade eq_refl Hctx Hown)
    as (mirror & Hm & _ & Hres & _).
  exists mirror. exact (conj Hm Hres).
Defined.

(** The [records.detail] scenario through [invenio_url_for]. *)
Lemma invenio_url_for_external_witness :
  invenio_url_for (H := InvenioAppsUrlsBuilder_impl Werkzeug.MapAdapter_build)
    (Some DemoEdge.served) "records.detail" None [("id", "abc123")]
  = Ok "https://main.example.org/records/abc123"
  /\ exists p path,
      Flask.config Demo.ui_app !! "SITE_UI_URL" = Some (Str p)
      /\ "https://main.example.org/records/abc123" = p +:+ path.
Proof.
  assert (Hcall : invenio_url_for (H := InvenioAppsUrlsBuilder_impl Werkzeug.MapAdapter_build)
                    (Some DemoEdge.served) "records.detail" None [("id", "abc123")]
                  = Ok "https://main.example.org/records/abc123")
    by (vm_compute; reflexivity).
  split; [exact Hcall|].
  destruct (invenio_url_for_external Werkzeug.MapAdapter_build (Some DemoEdge.served)
              "records.detail" None [("id", "abc123")]) as (_ & _ & Hext).
  destruct (Hext _ Hcall) as (c & self & key & table & p & path & Hc & Hs & Hk & Hp & _ & Hu).
  injection Hc as <-. injection Hs as <-.
  destruct Hk as [[-> _]|[-> _]].
  - exists p, path. exact (conj Hp Hu).
  - exfalso. cbn in Hp. vm_compute in Hp. injection Hp as <-.
    apply (f_equal (fun s => String.get 8 s)) in Hu. vm_compute in Hu. discriminate.
Defined.

(** ** The fallback is by exception, not by absence *)

Section MethodMismatch.
Import Werkzeug.

Implicit Types (m : Map) (r : Rule) (rs : list Rule) (ep : string)
  (values : Values).

Lemma elem_of_insert_by_key r x rs : r ∈ insert_by_key x rs -> r = x \/ r ∈ rs.
Proof.
  induction rs as [|r' rs IH].
  - intros ->%list_elem_of_singleton. by left.
  - unfold insert_by_key; fold insert_by_key. destruct (Nat.leb _ _).
    + intros [->|Hin]%elem_of_cons; [by left|by right].
    + intros [->|Hin]%elem_of_cons.
      * right. apply list_elem_of_here.
      * destruct (IH Hin) as [->|Hin']; [by left|].
        right. by apply list_elem_of_further.
Qed.

Lemma elem_of_sort_by_key r rs : r ∈ sort_by_key rs -> r ∈ rs.
Proof.
  induction rs as [|x rs IH]; [done|]. cbn.
  intros [->|Hin]%elem_of_insert_by_key.
  - apply list_elem_of_here.
  - apply list_elem_of_further. by apply IH.
Qed.

Lemma first_build_none rs values method :
  (forall r, r ∈ rs -> method_allowed r method = false) ->
  first_build rs values method = None.
Proof.
  induction rs as [|r rs IH]; [done|]. intros Hall. cbn.
  unfold Rule_suitable_for. rewrite (Hall r) by apply list_elem_of_here. cbn.
  apply IH. intros r' Hin. apply Hall. by apply list_elem_of_further.
Qed.

(** A method hint that every rule of the endpoint rejects cannot be
    built. *)
Lemma rejected_method_BuildError m ep values meth :
  (forall r, r ∈ rules m -> endpoint r = ep -> method_allowed r (Some meth) = false) ->
  MapAdapter_build m ep values (Some meth) = Raise (BuildError ep values (Some meth)).
Proof.
  intros Hall. unfold MapAdapter_build, MapAdapter_partial_build.
  rewrite first_build_none; [done|].
  intros r [Hep Hin]%elem_of_sort_by_key%list_elem_of_filter.
  apply Hall; [done|]. cbn in Hep. by apply String.eqb_eq, Is_true_eq_true.
Qed.

(** X11. The fallback is triggered by [BuildError], not by the endpoint
    being unknown: when the own table has rules for the endpoint but each
    of them rejects the method hint, [build] still goes to the mirrored
    table and ends with what that table raises, or with the path it builds
    behind the other-application prefix. *)
Theorem build_rejected_method_falls_back (w : World) (app : Flask.t) mirror ep values meth :
  app_ctx w = Some app ->
  (forall r, r ∈ rules (Flask.url_map app) -> endpoint r = ep ->
     method_allowed r (Some meth) = false) ->
  url_map (this w) = Some mirror ->
  let o := build MapAdapter_build ep values (Some meth) w in
  res o = match MapAdapter_build mirror ep values (Some meth) with
          | Ok path => prefixed app (cfg_of_other_app_prefix (this w)) path
          | Raise e => Raise e
          end
  /\ (BuildCall Mirror ∈ trace o).
Proof.
  intros Hctx Hall Hm o. subst o.
  pose proof (rejected_method_BuildError _ ep values meth Hall) as Hown.
  destruct (MapAdapter_build mirror ep values (Some meth)) as [path|e] eqn:Hb.
  - erewrite build_of_other_path by (try done; by rewrite Hown). cbn. split; [done|].
    apply list_elem_of_further, list_elem_of_further, list_elem_of_further,
      list_elem_of_here.
  - erewrite build_of_other_raise by (try done; by rewrite Hown). cbn. split; [done|].
    apply list_elem_of_further, list_elem_of_further, list_elem_of_further,
      list_elem_of_here.
Qed.

End MethodMismatch.

(** [static] is a route of both applications; asked for with DELETE, which
    the own route rejects, its URL is the one of the other application. *)
Lemma build_rejected_method_falls_back_witness :
  Werkzeug.has_endpoint (Flask.url_map Demo.ui_app) "static" = true
  /\ app_ctx Demo.w = Some Demo.ui_app
  /\ (forall r, r ∈ Werkzeug.rules (Flask.url_map Demo.ui_app) ->
        Werkzeug.endpoint r = "static" ->
        Werkzeug.method_allowed r (Some "DELETE") = false)
  /\ url_map (this Demo.w) = Some Demo.mirror
  /\ res (build Werkzeug.MapAdapter_build "static" [("filename", "a.css")]
            (Some "DELETE") Demo.w)
     = Ok "https://archive.example.org/static/a.css".
Proof.
  assert (Hctx : app_ctx Demo.w = Some Demo.ui_app) by reflexivity.
  assert (Hall : forall r, r ∈ Werkzeug.rules (Flask.url_map Demo.ui_app) ->
            Werkzeug.endpoint r = "static" ->
            Werkzeug.method_allowed r (Some "DELETE") = false).
  { intros r Hin Hep. cbn in Hin.
    apply elem_of_cons in Hin as [->|Hin]; [reflexivity|].
    apply elem_of_cons in Hin as [->|Hin]; [reflexivity|].
    by apply elem_of_nil in Hin. }
  assert (Hm : url_map (this Demo.w) = Some Demo.mirror) by reflexivity.
  refine (conj eq_refl (conj Hctx (conj Hall (conj Hm _)))).
  rewrite (proj1 (build_rejected_method_falls_back Demo.w Demo.ui_app Demo.mirror
                    "static" [("filename", "a.css")] "DELETE" Hctx Hall Hm)).
  vm_compute. reflexivity.
Defined.
